(** * ConversationDatabase: the SQLite conversation store of the research agent

    A shallow embedding of [backend/src/agent/database.py].  Every method of
    [ConversationDatabase] opens its own connection with
    [with sqlite3.connect(self.db_path) as conn], runs one to three SQL
    statements and returns a plain dict, list or bool.  The embedding keeps
    that shape: a database file is a value of type [Database], a method is a
    function from the file before the call to an outcome and the file after
    it, and the body of the [with] block is written in a small
    state-and-exception monad over the open connection.

    What the source leaves to its environment is kept as data of the model:
    - the readings of the two clocks (SQLite's [CURRENT_TIMESTAMP] and
      Python's [datetime.now().isoformat()]) and the I/O failures of the
      engine, per call, in [Env];
    - the [json] codec and the order in which the engine visits the rows of a
      table, as variables of the section [Store]. *)

From Stdlib Require Import String Ascii List ZArith Lia Bool DecimalString.
From Stdlib Require Import Sorting.Sorted Sorting.Permutation.
Import ListNotations.

Set Warnings "-register-all".

Local Open Scope string_scope.
Local Open Scope Z_scope.

(** ** JSON documents *)

(** The values [json.dumps] accepts and [json.loads] produces, floats left
    out.  A Python [dict] with [str] keys is the list of its items in
    insertion order. *)
Inductive json : Type :=
| JNull
| JBool (b : bool)
| JInt (n : Z)
| JStr (s : string)
| JArr (items : list json)
| JObj (members : list (string * json)).

Definition Dict : Type := list (string * json).

(** [metadata or {}]: [None] and the empty dict are falsy. *)
Definition or_empty (metadata : option Dict) : Dict :=
  match metadata with
  | Some (kv :: rest) => kv :: rest
  | Some [] => []
  | None => []
  end.

(** ** Tables *)

(** [CREATE TABLE conversations (id TEXT PRIMARY KEY, title TEXT,
    created_at TIMESTAMP DEFAULT CURRENT_TIMESTAMP,
    updated_at TIMESTAMP DEFAULT CURRENT_TIMESTAMP, metadata TEXT)].
    Timestamps are the text SQLite stores; [metadata] may be NULL. *)
Record conversation_row : Type := {
  c_id : string;
  c_title : string;
  c_created_at : string;
  c_updated_at : string;
  c_metadata : option string
}.

(** [CREATE TABLE messages (id INTEGER PRIMARY KEY AUTOINCREMENT,
    conversation_id TEXT, role TEXT, content TEXT,
    timestamp TIMESTAMP DEFAULT CURRENT_TIMESTAMP, metadata TEXT,
    FOREIGN KEY (conversation_id) REFERENCES conversations(id)
    ON DELETE CASCADE)]. *)
Record message_row : Type := {
  m_id : Z;
  m_conversation_id : string;
  m_role : string;
  m_content : string;
  m_timestamp : string;
  m_metadata : option string
}.

(** The file: both tables in rowid order, and the row that AUTOINCREMENT
    keeps for [messages] in [sqlite_sequence] (the largest rowid the table
    has ever held). *)
Record Database : Type := {
  conversations : list conversation_row;
  messages : list message_row;
  sqlite_sequence : Z
}.

(** A file on which [_init_db] has just created the tables. *)
Definition empty_db : Database :=
  {| conversations := []; messages := []; sqlite_sequence := 0 |}.

(** [_init_db]: [CREATE TABLE IF NOT EXISTS] twice and
    [CREATE INDEX IF NOT EXISTS]; [None] is a file without the tables. *)
Definition _init_db (file : option Database) : Database :=
  match file with
  | Some db => db
  | None => empty_db
  end.

(** The largest 64-bit signed integer, the largest rowid. *)
Definition MAX_ROWID : Z := 9223372036854775807.

Definition max_rowid (rows : list message_row) : Z :=
  fold_right (fun r acc => Z.max (m_id r) acc) 0 rows.

(** ** Exceptions, environment, connection *)

Inductive exn : Type :=
| IntegrityError     (* sqlite3.IntegrityError: a constraint failed *)
| OperationalError   (* sqlite3.OperationalError: the engine could not run the call *)
| OverflowError      (* a Python int that does not fit SQLite's INTEGER *)
| JSONDecodeError.   (* json.loads on text that is no JSON document *)

Inductive outcome (A : Type) : Type :=
| Return (a : A)
| Raise (e : exn).
Arguments Return {A} a.
Arguments Raise {A} e.

(** What one method call gets from outside the program.  Engine calls are
    numbered from 0 ([sqlite3.connect]) in the order the method issues
    them; [datetime.now()] calls are numbered on their own. *)
Record Env : Type := {
  CURRENT_TIMESTAMP : nat -> string;
  datetime_now : nat -> string;
  io_error : nat -> bool
}.

(** An open connection.  [committed] is the file, [working] what the
    connection sees (the file plus its uncommitted changes). *)
Record Connection : Type := {
  committed : Database;
  working : Database;
  in_transaction : bool;
  foreign_keys : bool;
  calls : nat
}.

(** Code inside a [with sqlite3.connect(...) as conn:] block. *)
Definition M (A : Type) : Type := Env -> Connection -> outcome A * Connection.

Definition ret {A : Type} (a : A) : M A := fun _ c => (Return a, c).

Definition raise {A : Type} (e : exn) : M A := fun _ c => (Raise e, c).

Definition bind {A B : Type} (m : M A) (k : A -> M B) : M B :=
  fun env c =>
    match m env c with
    | (Return a, c') => k a env c'
    | (Raise e, c') => (Raise e, c')
    end.

Declare Scope conn_scope.
Delimit Scope conn_scope with conn.
Notation "x <- m ;; k" := (bind m (fun x => k))
  (at level 100, m at next level, right associativity) : conn_scope.
Notation "m ;; k" := (bind m (fun _ => k))
  (at level 100, right associativity) : conn_scope.
Local Open Scope conn_scope.

Definition bump (c : Connection) : Connection :=
  {| committed := committed c; working := working c;
     in_transaction := in_transaction c; foreign_keys := foreign_keys c;
     calls := S (calls c) |}.

(** [cursor.execute] of an INSERT, UPDATE or DELETE.  The sqlite3 module
    opens a transaction before the statement; the statement reads
    [CURRENT_TIMESTAMP] once, and its changes stay in [working]. *)
Definition execute_dml {A : Type}
    (stmt : string -> bool -> Database -> outcome (A * Database)) : M A :=
  fun env c =>
    let n := calls c in
    if io_error env n then (Raise OperationalError, bump c)
    else
      match stmt (CURRENT_TIMESTAMP env n) (foreign_keys c) (working c) with
      | Return (a, db') =>
          (Return a,
           {| committed := committed c; working := db';
              in_transaction := true; foreign_keys := foreign_keys c;
              calls := S n |})
      | Raise e =>
          (Raise e,
           {| committed := committed c; working := working c;
              in_transaction := true; foreign_keys := foreign_keys c;
              calls := S n |})
      end.

(** [cursor.execute] of a SELECT followed by [fetchone]/[fetchall]. *)
Definition execute_select {A : Type} (q : Database -> A) : M A :=
  fun env c =>
    if io_error env (calls c) then (Raise OperationalError, bump c)
    else (Return (q (working c)), bump c).

(** [conn.commit()]: nothing to do outside a transaction. *)
Definition commit : M unit :=
  fun env c =>
    if in_transaction c then
      if io_error env (calls c) then (Raise OperationalError, bump c)
      else
        (Return tt,
         {| committed := working c; working := working c;
            in_transaction := false; foreign_keys := foreign_keys c;
            calls := S (calls c) |})
    else (Return tt, c).

(** [with sqlite3.connect(self.db_path) as conn: body].  A fresh
    connection has [PRAGMA foreign_keys] off, and no method turns it on.
    Leaving the block commits when [body] returned and rolls back when it
    raised; what is left of the connection is its committed file. *)
Definition with_connect {A : Type} (body : M A) (env : Env) (db : Database)
  : outcome A * Database :=
  if io_error env 0%nat then (Raise OperationalError, db)
  else
    let conn := {| committed := db; working := db; in_transaction := false;
                   foreign_keys := false; calls := 1 |} in
    match body env conn with
    | (Return a, c) =>
        match commit env c with
        | (Return _, c') => (Return a, committed c')
        | (Raise e, c') => (Raise e, committed c')
        end
    | (Raise e, c) => (Raise e, committed c)
    end.

(** ** A reference instance of the [json] codec

    [json.dumps] and [json.loads] are library code; the store takes them as
    parameters.  This module is an executable instance of the two, close to
    the library's defaults ([", "] and [": "] separators, [ensure_ascii]),
    on which concrete runs of the store are evaluated.  A character of a
    [string] stands for a code point below 256. *)
Module Json.

Definition dquote : ascii := "034"%char.
Definition backslash : ascii := "092"%char.

Definition hex_digit (n : N) : ascii :=
  if (n <? 10)%N then ascii_of_N (48 + n) else ascii_of_N (87 + n).

Definition escape_char (c : ascii) : string :=
  let n := N_of_ascii c in
  if (n =? 34)%N then String backslash (String dquote "")
  else if (n =? 92)%N then String backslash (String backslash "")
  else if (n =? 10)%N then String backslash "n"
  else if (n =? 13)%N then String backslash "r"
  else if (n =? 9)%N then String backslash "t"
  else if (n =? 8)%N then String backslash "b"
  else if (n =? 12)%N then String backslash "f"
  else if ((n <? 32) || (126 <? n))%N then
    String backslash
      (String "u" (String "0" (String "0"
         (String (hex_digit (n / 16)) (String (hex_digit (n mod 16)) "")))))
  else String c "".

Fixpoint escape (s : string) : string :=
  match s with
  | EmptyString => ""
  | String c s' => escape_char c ++ escape s'
  end.

Definition quote (s : string) : string :=
  String dquote (escape s ++ String dquote "").

Fixpoint join (sep : string) (parts : list string) : string :=
  match parts with
  | [] => ""
  | [p] => p
  | p :: rest => p ++ sep ++ join sep rest
  end.

Fixpoint dumps (v : json) : string :=
  match v with
  | JNull => "null"
  | JBool true => "true"
  | JBool false => "false"
  | JInt n => DecimalString.NilZero.string_of_int (Z.to_int n)
  | JStr s => quote s
  | JArr items => "[" ++ join ", " (map dumps items) ++ "]"
  | JObj members =>
      "{" ++ join ", "
               (map (fun kv => quote (fst kv) ++ ": " ++ dumps (snd kv))
                    members)
          ++ "}"
  end.

(** *** Decoder *)

Definition is_ws (c : ascii) : bool :=
  let n := N_of_ascii c in
  ((n =? 32) || (n =? 9) || (n =? 10) || (n =? 13))%N.

Fixpoint skip_ws (s : string) : string :=
  match s with
  | String c s' => if is_ws c then skip_ws s' else s
  | EmptyString => s
  end.

Definition hex_value (c : ascii) : option N :=
  let n := N_of_ascii c in
  if ((48 <=? n) && (n <=? 57))%N then Some (n - 48)%N
  else if ((97 <=? n) && (n <=? 102))%N then Some (n - 87)%N
  else if ((65 <=? n) && (n <=? 70))%N then Some (n - 55)%N
  else None.

Definition unescape (c : ascii) : option ascii :=
  let n := N_of_ascii c in
  if (n =? 34)%N then Some dquote
  else if (n =? 92)%N then Some backslash
  else if (n =? 47)%N then Some "/"%char
  else if (n =? 110)%N then Some "010"%char
  else if (n =? 114)%N then Some "013"%char
  else if (n =? 116)%N then Some "009"%char
  else if (n =? 98)%N then Some "008"%char
  else if (n =? 102)%N then Some "012"%char
  else None.

(** The text after an opening quote, up to the closing one. *)
Fixpoint scan_string (s : string) : option (string * string) :=
  match s with
  | EmptyString => None
  | String c s' =>
      if (N_of_ascii c =? 34)%N then Some ("", s')
      else if (N_of_ascii c =? 92)%N then
        match s' with
        | String "u" (String a (String b (String h (String l rest)))) =>
            match hex_value a, hex_value b, hex_value h, hex_value l with
            | Some 0%N, Some 0%N, Some hi, Some lo =>
                match scan_string rest with
                | Some (body, tail) =>
                    Some (String (ascii_of_N (16 * hi + lo)) body, tail)
                | None => None
                end
            | _, _, _, _ => None
            end
        | String e rest =>
            match unescape e, scan_string rest with
            | Some ch, Some (body, tail) => Some (String ch body, tail)
            | _, _ => None
            end
        | EmptyString => None
        end
      else if (N_of_ascii c <? 32)%N then None
      else
        match scan_string s' with
        | Some (body, tail) => Some (String c body, tail)
        | None => None
        end
  end.

Definition is_digit (c : ascii) : bool :=
  let n := N_of_ascii c in ((48 <=? n) && (n <=? 57))%N.

Fixpoint scan_digits (s : string) : string * string :=
  match s with
  | String c s' =>
      if is_digit c then
        let (ds, tail) := scan_digits s' in (String c ds, tail)
      else ("", s)
  | EmptyString => ("", s)
  end.

Definition scan_int (s : string) : option (Z * string) :=
  let (sign, body) :=
    match s with
    | String "-" s' => ("-", s')
    | _ => ("", s)
    end in
  let (ds, tail) := scan_digits body in
  match ds with
  | EmptyString => None
  | String "0" (String _ _) => None
  | _ =>
      match DecimalString.NilZero.int_of_string (sign ++ ds) with
      | Some i => Some (Z.of_int i, tail)
      | None => None
      end
  end.

Fixpoint strip_prefix (p s : string) : option string :=
  match p, s with
  | EmptyString, _ => Some s
  | String a p', String b s' =>
      if Ascii.eqb a b then strip_prefix p' s' else None
  | String _ _, EmptyString => None
  end.

(** [d[k] = v] on a dict: a repeated key keeps its place and takes the
    last value. *)
Fixpoint dict_set (k : string) (v : json) (d : Dict) : Dict :=
  match d with
  | [] => [(k, v)]
  | (k', v') :: d' =>
      if String.eqb k k' then (k, v) :: d' else (k', v') :: dict_set k v d'
  end.

Fixpoint scan_value (fuel : nat) (s : string) : option (json * string) :=
  match fuel with
  | O => None
  | S fuel' =>
      match skip_ws s with
      | String "{" rest =>
          match skip_ws rest with
          | String "}" tail => Some (JObj [], tail)
          | _ =>
              match scan_members fuel' [] rest with
              | Some (d, tail) => Some (JObj d, tail)
              | None => None
              end
          end
      | String "[" rest =>
          match skip_ws rest with
          | String "]" tail => Some (JArr [], tail)
          | _ =>
              match scan_items fuel' rest with
              | Some (xs, tail) => Some (JArr xs, tail)
              | None => None
              end
          end
      | String "n" _ =>
          option_map (pair JNull) (strip_prefix "null" (skip_ws s))
      | String "t" _ =>
          option_map (pair (JBool true)) (strip_prefix "true" (skip_ws s))
      | String "f" _ =>
          option_map (pair (JBool false)) (strip_prefix "false" (skip_ws s))
      | String c rest =>
          if (N_of_ascii c =? 34)%N then
            match scan_string rest with
            | Some (body, tail) => Some (JStr body, tail)
            | None => None
            end
          else
            match scan_int (skip_ws s) with
            | Some (n, tail) => Some (JInt n, tail)
            | None => None
            end
      | EmptyString => None
      end
  end
with scan_items (fuel : nat) (s : string) : option (list json * string) :=
  match fuel with
  | O => None
  | S fuel' =>
      match scan_value fuel' s with
      | Some (v, tail) =>
          match skip_ws tail with
          | String "," rest =>
              match scan_items fuel' rest with
              | Some (vs, tail') => Some (v :: vs, tail')
              | None => None
              end
          | String "]" rest => Some ([v], rest)
          | _ => None
          end
      | None => None
      end
  end
with scan_members (fuel : nat) (acc : Dict) (s : string)
  : option (Dict * string) :=
  match fuel with
  | O => None
  | S fuel' =>
      match skip_ws s with
      | String q rest =>
          if (N_of_ascii q =? 34)%N then
            match scan_string rest with
            | Some (key, after_key) =>
                match skip_ws after_key with
                | String ":" after_colon =>
                    match scan_value fuel' after_colon with
                    | Some (v, tail) =>
                        let acc' := dict_set key v acc in
                        match skip_ws tail with
                        | String "," more => scan_members fuel' acc' more
                        | String "}" done => Some (acc', done)
                        | _ => None
                        end
                    | None => None
                    end
                | _ => None
                end
            | None => None
            end
          else None
      | EmptyString => None
      end
  end.

(** [json.loads]; [None] stands for [JSONDecodeError]. *)
Definition loads (s : string) : option json :=
  match scan_value (2 * String.length s + 2) s with
  | Some (v, tail) =>
      match skip_ws tail with
      | EmptyString => Some v
      | String _ _ => None
      end
  | None => None
  end.

End Json.

(** ** What the methods return *)

(** The dict built by [create_conversation] and [get_conversation]. *)
Record ConversationDict : Type := {
  cd_id : string;
  cd_title : string;
  cd_created_at : string;
  cd_updated_at : string;
  cd_metadata : json
}.

(** The dict built by [get_all_conversations], with [message_count]. *)
Record ConversationSummary : Type := {
  cs_id : string;
  cs_title : string;
  cs_created_at : string;
  cs_updated_at : string;
  cs_message_count : Z;
  cs_metadata : json
}.

(** The dict built by [add_message] and [get_messages]. *)
Record MessageDict : Type := {
  md_id : Z;
  md_conversation_id : string;
  md_role : string;
  md_content : string;
  md_timestamp : string;
  md_metadata : json
}.

(** ** The SQL statements *)

(** [ORDER BY]: the rows in the order the engine produced them, sorted by
    insertion; [le x y] says that [x] may come before [y]. *)
Fixpoint insert_by {A : Type} (le : A -> A -> bool) (x : A) (l : list A)
  : list A :=
  match l with
  | [] => [x]
  | y :: l' => if le x y then x :: l else y :: insert_by le x l'
  end.

Fixpoint order_by {A : Type} (le : A -> A -> bool) (l : list A) : list A :=
  match l with
  | [] => []
  | x :: l' => insert_by le x (order_by le l')
  end.

(** [LIMIT ?]: a negative limit means no limit. *)
Definition apply_limit {A : Type} (limit : Z) (rows : list A) : list A :=
  if limit <? 0 then rows else firstn (Z.to_nat limit) rows.

Definition has_id (conversation_id : string) (r : conversation_row) : bool :=
  (c_id r =? conversation_id)%string.

Definition in_conversation (conversation_id : string) (r : message_row)
  : bool :=
  (m_conversation_id r =? conversation_id)%string.

(** [INSERT INTO conversations (id, title, metadata) VALUES (?, ?, ?)]:
    the primary key rejects a second row with the same id; both timestamp
    columns take their default, the statement's [CURRENT_TIMESTAMP]. *)
Definition insert_conversation (conversation_id title metadata : string)
    (now : string) (fk : bool) (db : Database) : outcome (unit * Database) :=
  if existsb (has_id conversation_id) (conversations db) then
    Raise IntegrityError
  else
    Return (tt,
      {| conversations :=
           conversations db ++
             [{| c_id := conversation_id; c_title := title;
                 c_created_at := now; c_updated_at := now;
                 c_metadata := Some metadata |}];
         messages := messages db;
         sqlite_sequence := sqlite_sequence db |}).

(** [INSERT INTO messages (conversation_id, role, content, metadata)
    VALUES (?, ?, ?, ?)].  AUTOINCREMENT gives the row one more than the
    largest rowid the table has ever held and fails when that was the
    largest possible one; the foreign key is checked only on a connection
    that enforces foreign keys.  The result is [cursor.lastrowid]. *)
Definition insert_message (conversation_id role content metadata : string)
    (now : string) (fk : bool) (db : Database) : outcome (Z * Database) :=
  if fk && negb (existsb (has_id conversation_id) (conversations db)) then
    Raise IntegrityError
  else
    let last := Z.max (sqlite_sequence db) (max_rowid (messages db)) in
    if MAX_ROWID <=? last then Raise OperationalError
    else
      Return (last + 1,
        {| conversations := conversations db;
           messages :=
             messages db ++
               [{| m_id := last + 1; m_conversation_id := conversation_id;
                   m_role := role; m_content := content;
                   m_timestamp := now; m_metadata := Some metadata |}];
           sqlite_sequence := last + 1 |}).

Definition set_updated_at (now : string) (r : conversation_row)
  : conversation_row :=
  {| c_id := c_id r; c_title := c_title r; c_created_at := c_created_at r;
     c_updated_at := now; c_metadata := c_metadata r |}.

Definition set_title (title now : string) (r : conversation_row)
  : conversation_row :=
  {| c_id := c_id r; c_title := title; c_created_at := c_created_at r;
     c_updated_at := now; c_metadata := c_metadata r |}.

Definition update_where (conversation_id : string)
    (f : conversation_row -> conversation_row) (db : Database) : Database :=
  {| conversations :=
       map (fun r => if has_id conversation_id r then f r else r)
           (conversations db);
     messages := messages db;
     sqlite_sequence := sqlite_sequence db |}.

Definition rowcount (conversation_id : string) (db : Database) : nat :=
  length (filter (has_id conversation_id) (conversations db)).

(** [UPDATE conversations SET updated_at = CURRENT_TIMESTAMP WHERE id = ?];
    the result is [cursor.rowcount]. *)
Definition update_updated_at (conversation_id : string)
    (now : string) (fk : bool) (db : Database) : outcome (nat * Database) :=
  Return (rowcount conversation_id db,
          update_where conversation_id (set_updated_at now) db).

(** [UPDATE conversations SET title = ?, updated_at = CURRENT_TIMESTAMP
    WHERE id = ?]. *)
Definition update_title (title conversation_id : string)
    (now : string) (fk : bool) (db : Database) : outcome (nat * Database) :=
  Return (rowcount conversation_id db,
          update_where conversation_id (set_title title now) db).

(** [DELETE FROM conversations WHERE id = ?].  [ON DELETE CASCADE] removes
    the messages of a deleted conversation on a connection that enforces
    foreign keys, and is not counted in [rowcount]. *)
Definition delete_where (conversation_id : string)
    (now : string) (fk : bool) (db : Database) : outcome (nat * Database) :=
  let deleted := rowcount conversation_id db in
  Return (deleted,
    {| conversations :=
         filter (fun r => negb (has_id conversation_id r)) (conversations db);
       messages :=
         if fk && (0 <? deleted)%nat then
           filter (fun r => negb (in_conversation conversation_id r))
                  (messages db)
         else messages db;
       sqlite_sequence := sqlite_sequence db |}).

(** [SELECT * FROM conversations WHERE id = ?] and [fetchone]. *)
Definition select_conversation (conversation_id : string) (db : Database)
  : option conversation_row :=
  find (has_id conversation_id) (conversations db).

(** [COUNT(m.id)] over the rows the LEFT JOIN pairs with a conversation. *)
Definition message_count (db : Database) (r : conversation_row) : Z :=
  Z.of_nat (length (filter (in_conversation (c_id r)) (messages db))).

Definition updated_desc (x y : conversation_row * Z) : bool :=
  (c_updated_at (fst y) <=? c_updated_at (fst x))%string.

Definition timestamp_asc (x y : message_row) : bool :=
  (m_timestamp x <=? m_timestamp y)%string.

(** Python [int] to SQLite INTEGER, a 64-bit signed integer. *)
Definition fits_int64 (n : Z) : bool :=
  (- MAX_ROWID - 1 <=? n) && (n <=? MAX_ROWID).

Definition bind_int (n : Z) : M Z :=
  if fits_int64 n then ret n else raise OverflowError.

(** [datetime.now().isoformat()], the [k]-th of the call. *)
Definition now_isoformat (k : nat) : M string :=
  fun env c => (Return (datetime_now env k), c).

Definition lift {A : Type} (o : outcome A) : M A := fun _ c => (o, c).

(** A list comprehension whose element expression may raise. *)
Fixpoint traverse {A B : Type} (f : A -> outcome B) (l : list A)
  : outcome (list B) :=
  match l with
  | [] => Return []
  | x :: l' =>
      match f x with
      | Return y =>
          match traverse f l' with
          | Return ys => Return (y :: ys)
          | Raise e => Raise e
          end
      | Raise e => Raise e
      end
  end.

(** ** The methods of [ConversationDatabase] *)

Section Store.

(** [json.dumps] and [json.loads] ([None]: the text is not JSON). *)
Variable json_dumps : json -> string.
Variable json_loads : string -> option json.

(** The order in which the engine visits the rows of each table when a
    SELECT reads it; an [ORDER BY] sorts the rows from that order. *)
Variable scan_conversations :
  list conversation_row -> list conversation_row.
Variable scan_messages : list message_row -> list message_row.

(** [json.loads(row["metadata"]) if row["metadata"] else {}]. *)
Definition loads_or_empty (text : option string) : outcome json :=
  match text with
  | None => Return (JObj [])
  | Some EmptyString => Return (JObj [])
  | Some s =>
      match json_loads s with
      | Some v => Return v
      | None => Raise JSONDecodeError
      end
  end.

Definition conversation_dict (r : conversation_row)
  : outcome ConversationDict :=
  match loads_or_empty (c_metadata r) with
  | Return doc =>
      Return {| cd_id := c_id r; cd_title := c_title r;
                cd_created_at := c_created_at r;
                cd_updated_at := c_updated_at r;
                cd_metadata := doc |}
  | Raise e => Raise e
  end.

Definition summary_dict (rc : conversation_row * Z)
  : outcome ConversationSummary :=
  match loads_or_empty (c_metadata (fst rc)) with
  | Return doc =>
      Return {| cs_id := c_id (fst rc); cs_title := c_title (fst rc);
                cs_created_at := c_created_at (fst rc);
                cs_updated_at := c_updated_at (fst rc);
                cs_message_count := snd rc;
                cs_metadata := doc |}
  | Raise e => Raise e
  end.

Definition message_dict (r : message_row) : outcome MessageDict :=
  match loads_or_empty (m_metadata r) with
  | Return doc =>
      Return {| md_id := m_id r;
                md_conversation_id := m_conversation_id r;
                md_role := m_role r; md_content := m_content r;
                md_timestamp := m_timestamp r;
                md_metadata := doc |}
  | Raise e => Raise e
  end.

(** [SELECT c.*, COUNT(m.id) as message_count FROM conversations c
    LEFT JOIN messages m ON c.id = m.conversation_id GROUP BY c.id
    ORDER BY c.updated_at DESC LIMIT ?].  [id] is the primary key, so
    every group holds one conversation. *)
Definition select_all_conversations (limit : Z) (db : Database)
  : list (conversation_row * Z) :=
  apply_limit limit
    (order_by updated_desc
       (map (fun r => (r, message_count db r))
            (scan_conversations (conversations db)))).

(** [SELECT * FROM messages WHERE conversation_id = ?
    ORDER BY timestamp ASC]. *)
Definition select_messages (conversation_id : string) (db : Database)
  : list message_row :=
  order_by timestamp_asc
    (filter (in_conversation conversation_id)
            (scan_messages (messages db))).

Definition create_conversation (conversation_id title : string)
    (metadata : option Dict) : Env -> Database -> outcome ConversationDict * Database :=
  with_connect (
    execute_dml
      (insert_conversation conversation_id title
         (json_dumps (JObj (or_empty metadata)))) ;;
    commit ;;
    created_at <- now_isoformat 0 ;;
    updated_at <- now_isoformat 1 ;;
    ret {| cd_id := conversation_id; cd_title := title;
           cd_created_at := created_at; cd_updated_at := updated_at;
           cd_metadata := JObj (or_empty metadata) |}).

Definition get_conversation (conversation_id : string)
  : Env -> Database -> outcome (option ConversationDict) * Database :=
  with_connect (
    row <- execute_select (select_conversation conversation_id) ;;
    match row with
    | Some r => d <- lift (conversation_dict r) ;; ret (Some d)
    | None => ret None
    end).

Definition get_all_conversations (limit : Z)
  : Env -> Database -> outcome (list ConversationSummary) * Database :=
  with_connect (
    n <- bind_int limit ;;
    rows <- execute_select (select_all_conversations n) ;;
    lift (traverse summary_dict rows)).

Definition add_message (conversation_id role content : string)
    (metadata : option Dict) : Env -> Database -> outcome MessageDict * Database :=
  with_connect (
    message_id <- execute_dml
      (insert_message conversation_id role content
         (json_dumps (JObj (or_empty metadata)))) ;;
    execute_dml (update_updated_at conversation_id) ;;
    commit ;;
    timestamp <- now_isoformat 0 ;;
    ret {| md_id := message_id; md_conversation_id := conversation_id;
           md_role := role; md_content := content;
           md_timestamp := timestamp;
           md_metadata := JObj (or_empty metadata) |}).

Definition get_messages (conversation_id : string)
  : Env -> Database -> outcome (list MessageDict) * Database :=
  with_connect (
    rows <- execute_select (select_messages conversation_id) ;;
    lift (traverse message_dict rows)).

Definition delete_conversation (conversation_id : string)
  : Env -> Database -> outcome bool * Database :=
  with_connect (
    n <- execute_dml (delete_where conversation_id) ;;
    let deleted := (0 <? n)%nat in
    commit ;;
    ret deleted).

Definition update_conversation_title (conversation_id title : string)
  : Env -> Database -> outcome bool * Database :=
  with_connect (
    n <- execute_dml (update_title title conversation_id) ;;
    let updated := (0 <? n)%nat in
    commit ;;
    ret updated).

(** *** Sequences of calls *)

Inductive call : Type :=
| CreateConversation (conversation_id title : string)
                     (metadata : option Dict)
| GetConversation (conversation_id : string)
| GetAllConversations (limit : Z)
| AddMessage (conversation_id role content : string)
             (metadata : option Dict)
| GetMessages (conversation_id : string)
| DeleteConversation (conversation_id : string)
| UpdateConversationTitle (conversation_id title : string).

(** The file after one call, whatever the call returned or raised. *)
Definition run_call (c : call) (env : Env) (db : Database) : Database :=
  match c with
  | CreateConversation i t m => snd (create_conversation i t m env db)
  | GetConversation i => snd (get_conversation i env db)
  | GetAllConversations n => snd (get_all_conversations n env db)
  | AddMessage i r c m => snd (add_message i r c m env db)
  | GetMessages i => snd (get_messages i env db)
  | DeleteConversation i => snd (delete_conversation i env db)
  | UpdateConversationTitle i t =>
      snd (update_conversation_title i t env db)
  end.

Fixpoint run_calls (cs : list (call * Env)) (db : Database) : Database :=
  match cs with
  | [] => db
  | (c, env) :: cs' => run_calls cs' (run_call c env db)
  end.

End Store.

(** ** Environments, engines and stores for concrete runs *)

(** The engine reports no I/O failure during the call. *)
Definition no_io_error (env : Env) : Prop :=
  forall k, io_error env k = false.

(** A call during which both clocks stand still and the engine works. *)
Definition calm (utc local : string) : Env :=
  {| CURRENT_TIMESTAMP := fun _ => utc;
     datetime_now := fun _ => local;
     io_error := fun _ => false |}.

(** A call during which the engine's clock moves from [utc1] to [utc2]
    between the first statement and the second. *)
Definition ticking (utc1 utc2 local : string) : Env :=
  {| CURRENT_TIMESTAMP := fun k => if (k <=? 1)%nat then utc1 else utc2;
     datetime_now := fun _ => local;
     io_error := fun _ => false |}.

(** A call whose [k]-th engine call fails. *)
Definition failing_at (k : nat) (utc local : string) : Env :=
  {| CURRENT_TIMESTAMP := fun _ => utc;
     datetime_now := fun _ => local;
     io_error := fun n => (n =? k)%nat |}.

(** The engine on the connections the store opens: a SELECT visits the
    rows of a table by ascending rowid, the order the table is kept in. *)
Definition rowid_order {A : Type} (rows : list A) : list A := rows.

Definition sample_metadata : Dict := [("k", JStr "v"); ("n", JInt 3)].

(** One conversation, created at 10:00:00 UTC. *)
Definition one_conversation : Database :=
  snd (create_conversation Json.dumps "c1" "Plans" (Some sample_metadata)
         (calm "2026-11-03 10:00:00" "2026-11-03T11:00:00.250000")
         empty_db).

(** The same after [add_message("c1", "human", "hi")] and
    [add_message("c1", "ai", "hello")], both within the second 10:00:05. *)
Definition two_messages : Database :=
  snd (add_message Json.dumps "c1" "ai" "hello" None
         (calm "2026-11-03 10:00:05" "2026-11-03T11:00:05.750000")
         (snd (add_message Json.dumps "c1" "human" "hi" None
                 (calm "2026-11-03 10:00:05" "2026-11-03T11:00:05.500000")
                 one_conversation))).

(** Three conversations created in three successive seconds; the first
    one then gets a message, which makes it the latest updated. *)
Definition three_conversations : Database :=
  snd (add_message Json.dumps "c1" "human" "hi" None
         (calm "2026-11-03 10:00:07" "2026-11-03T11:00:07.500000")
    (snd (create_conversation Json.dumps "c3" "Third" None
            (calm "2026-11-03 10:00:02" "2026-11-03T11:00:02.250000")
    (snd (create_conversation Json.dumps "c2" "Second" None
            (calm "2026-11-03 10:00:01" "2026-11-03T11:00:01.250000")
            one_conversation))))).

(** A message added under an id for which no conversation was created. *)
Definition ghost_message : Database :=
  snd (add_message Json.dumps "ghost" "human" "anyone?" None
         (calm "2026-11-03 10:00:00" "2026-11-03T11:00:00.250000")
         empty_db).

(** ** Orders on what the queries return *)

Definition message_row_le (x y : message_row) : Prop :=
  timestamp_asc x y = true.

Definition conversation_row_ge (x y : conversation_row) : Prop :=
  (c_updated_at y <=? c_updated_at x)%string = true.

Definition timestamp_le (x y : MessageDict) : Prop :=
  (md_timestamp x <=? md_timestamp y)%string = true.

(** Timestamp first, ties by ascending id. *)
Definition timestamp_then_id (x y : MessageDict) : Prop :=
  (md_timestamp x <? md_timestamp y)%string = true \/
  (md_timestamp x = md_timestamp y /\ md_id x <= md_id y).

(** The same order on the stored rows. *)
Definition row_timestamp_then_id (x y : message_row) : Prop :=
  (m_timestamp x <? m_timestamp y)%string = true \/
  (m_timestamp x = m_timestamp y /\ m_id x <= m_id y).

(** The messages table is kept by ascending rowid. *)
Definition rowid_ordered (db : Database) : Prop :=
  StronglySorted (fun x y => m_id x < m_id y) (messages db).

(** The calls that only read. *)
Definition is_read (c : call) : bool :=
  match c with
  | GetConversation _ | GetAllConversations _ | GetMessages _ => true
  | CreateConversation _ _ _ | AddMessage _ _ _ _
  | DeleteConversation _ | UpdateConversationTitle _ _ => false
  end.

Definition updated_at_ge (x y : ConversationSummary) : Prop :=
  (cs_updated_at y <=? cs_updated_at x)%string = true.

(** A Message row and the dict a read returns for it. *)
Definition reads_as (json_loads : string -> option json)
    (r : message_row) (d : MessageDict) : Prop :=
  md_id d = m_id r /\
  md_conversation_id d = m_conversation_id r /\
  md_role d = m_role r /\
  md_content d = m_content r /\
  md_timestamp d = m_timestamp r /\
  loads_or_empty json_loads (m_metadata r) = Return (md_metadata d).

(** A Conversation row and its entry in the list of conversations: the
    columns of the row, and the number of Message rows under its id. *)
Definition summarises (json_loads : string -> option json) (db : Database)
    (r : conversation_row) (s : ConversationSummary) : Prop :=
  cs_id s = c_id r /\
  cs_title s = c_title r /\
  cs_created_at s = c_created_at r /\
  cs_updated_at s = c_updated_at r /\
  cs_message_count s =
    Z.of_nat (length (filter (in_conversation (c_id r)) (messages db))) /\
  loads_or_empty json_loads (c_metadata r) = Return (cs_metadata s).

(** Every stored metadata text is one [json.loads] accepts. *)
Definition decodable (json_loads : string -> option json) (db : Database)
  : Prop :=
  Forall (fun r => exists d, loads_or_empty json_loads (c_metadata r) = Return d)
         (conversations db) /\
  Forall (fun r => exists d, loads_or_empty json_loads (m_metadata r) = Return d)
         (messages db).

(** No message without its conversation. *)
Definition no_orphans (db : Database) : Prop :=
  forall m, In m (messages db) ->
    existsb (has_id (m_conversation_id m)) (conversations db) = true.

(** The primary keys hold: ids are distinct within each table. *)
Definition keys_unique (db : Database) : Prop :=
  NoDup (map c_id (conversations db)) /\ NoDup (map m_id (messages db)).

(** What [update_conversation_title] may change in a row: nothing but
    [title] and [updated_at], and nothing at all under another id. *)
Definition retitled (conversation_id : string)
    (old new : conversation_row) : Prop :=
  c_id new = c_id old /\
  c_created_at new = c_created_at old /\
  c_metadata new = c_metadata old /\
  (c_id old <> conversation_id -> new = old).

(** ** The HTTP endpoints of [app.py]

    Each endpoint awaits one or two methods of the global store [db] and
    turns an absent conversation into [HTTPException(status_code=404)].
    An endpoint that awaits two methods takes one environment per method;
    no other request runs between the two. *)

(** The global [db] of [app.py]: the store's methods under that name. *)
Module db.

Definition create_conversation := create_conversation.
Definition get_conversation := get_conversation.
Definition get_all_conversations := get_all_conversations.
Definition add_message := add_message.
Definition get_messages := get_messages.
Definition delete_conversation := delete_conversation.
Definition update_conversation_title := update_conversation_title.

End db.

Module App.

(** [class CreateConversationRequest(BaseModel)]. *)
Record CreateConversationRequest : Type := {
  request_title : option string;
  request_metadata : option Dict
}.

(** [class AddMessageRequest(BaseModel)]. *)
Record AddMessageRequest : Type := {
  role : string;
  content : string;
  metadata : option Dict
}.

(** The dict [{"success": True, "message": ...}]. *)
Record Success : Type := {
  success : bool;
  message : string
}.

(** How a request ends: the endpoint returns a body, raises
    [HTTPException], or lets an exception of the store through. *)
Inductive response (A : Type) : Type :=
| Body (body : A)
| HTTPException (status_code : Z) (detail : string)
| Unhandled (e : exn).
Arguments Body {A} body.
Arguments HTTPException {A} status_code detail.
Arguments Unhandled {A} e.

Definition not_found {A : Type} : response A :=
  HTTPException 404 "Conversation not found".

(** [request.title or "New Conversation"]: [None] and [""] are falsy. *)
Definition title_or_default (title : option string) : string :=
  match title with
  | None => "New Conversation"
  | Some EmptyString => "New Conversation"
  | Some t => t
  end.

Section Endpoints.

Variable json_dumps : json -> string.
Variable json_loads : string -> option json.
Variable scan_conversations : list conversation_row -> list conversation_row.
Variable scan_messages : list message_row -> list message_row.

(** [GET /api/conversations]. *)
Definition get_conversations (limit : Z) (env : Env) (file : Database)
  : response (list ConversationSummary) * Database :=
  match db.get_all_conversations json_loads scan_conversations limit env file
  with
  | (Return conversations, file') => (Body conversations, file')
  | (Raise e, file') => (Unhandled e, file')
  end.

(** [GET /api/conversation/{conversation_id}]. *)
Definition get_conversation (conversation_id : string) (env : Env)
    (file : Database) : response ConversationDict * Database :=
  match db.get_conversation json_loads conversation_id env file with
  | (Return (Some conversation), file') => (Body conversation, file')
  | (Return None, file') => (not_found, file')
  | (Raise e, file') => (Unhandled e, file')
  end.

(** [POST /api/conversation]; [uuid4] is [str(uuid.uuid4())]. *)
Definition create_conversation (uuid4 : string)
    (request : CreateConversationRequest) (env : Env) (file : Database)
  : response ConversationDict * Database :=
  let conversation_id := uuid4 in
  match db.create_conversation json_dumps conversation_id
          (title_or_default (request_title request))
          (request_metadata request) env file with
  | (Return conversation, file') => (Body conversation, file')
  | (Raise e, file') => (Unhandled e, file')
  end.

(** [POST /api/conversation/{conversation_id}/message]. *)
Definition add_message_to_conversation (conversation_id : string)
    (request : AddMessageRequest) (env1 env2 : Env) (file : Database)
  : response MessageDict * Database :=
  match db.get_conversation json_loads conversation_id env1 file with
  | (Return (Some _), file1) =>
      match db.add_message json_dumps conversation_id (role request)
              (content request) (metadata request) env2 file1 with
      | (Return message, file2) => (Body message, file2)
      | (Raise e, file2) => (Unhandled e, file2)
      end
  | (Return None, file1) => (not_found, file1)
  | (Raise e, file1) => (Unhandled e, file1)
  end.

(** [GET /api/conversation/{conversation_id}/messages]. *)
Definition get_conversation_messages (conversation_id : string)
    (env1 env2 : Env) (file : Database)
  : response (list MessageDict) * Database :=
  match db.get_conversation json_loads conversation_id env1 file with
  | (Return (Some _), file1) =>
      match db.get_messages json_loads scan_messages conversation_id env2
              file1 with
      | (Return messages, file2) => (Body messages, file2)
      | (Raise e, file2) => (Unhandled e, file2)
      end
  | (Return None, file1) => (not_found, file1)
  | (Raise e, file1) => (Unhandled e, file1)
  end.

(** [DELETE /api/conversation/{conversation_id}]. *)
Definition delete_conversation (conversation_id : string) (env : Env)
    (file : Database) : response Success * Database :=
  match db.delete_conversation conversation_id env file with
  | (Return true, file') =>
      (Body {| success := true; message := "Conversation deleted" |}, file')
  | (Return false, file') => (not_found, file')
  | (Raise e, file') => (Unhandled e, file')
  end.

(** [PATCH /api/conversation/{conversation_id}/title]. *)
Definition update_conversation_title (conversation_id title : string)
    (env : Env) (file : Database) : response Success * Database :=
  match db.update_conversation_title conversation_id title env file with
  | (Return true, file') =>
      (Body {| success := true; message := "Title updated" |}, file')
  | (Return false, file') => (not_found, file')
  | (Raise e, file') => (Unhandled e, file')
  end.

End Endpoints.

End App.

(** What [add_message] may change in a Conversation row: [updated_at],
    and that only under the id of the message. *)
Definition touched (conversation_id : string)
    (old new : conversation_row) : Prop :=
  c_id new = c_id old /\
  c_title new = c_title old /\
  c_created_at new = c_created_at old /\
  c_metadata new = c_metadata old /\
  (c_id old <> conversation_id -> new = old).

(** A conversation whose metadata column was never written, and a message
    whose metadata text is not JSON. *)
Definition bare_conversation : Database :=
  {| conversations :=
       [{| c_id := "c0"; c_title := "Imported";
           c_created_at := "2026-11-02 09:00:00";
           c_updated_at := "2026-11-02 09:00:00";
           c_metadata := None |}];
     messages :=
       [{| m_id := 1; m_conversation_id := "c0"; m_role := "human";
           m_content := "hi"; m_timestamp := "2026-11-02 09:00:01";
           m_metadata := Some "{oops" |}];
     sqlite_sequence := 1 |}.

(** ** Proof steps *)

(** Unfolds the connection monad in the body of a method. *)
Ltac run_method :=
  unfold with_connect, bind, execute_dml, execute_select, commit,
    now_isoformat, ret, raise, lift, bump; simpl.

(** Splits on every test the outcome of a method depends on. *)
Ltac by_cases :=
  repeat match goal with
    | |- context [if ?b then _ else _] => destruct b; simpl
    | |- context [match traverse ?f ?l with _ => _ end] =>
        destruct (traverse f l); simpl
    | |- context [match select_conversation ?i ?d with _ => _ end] =>
        destruct (select_conversation i d); simpl
    | |- context [match conversation_dict ?f ?r with _ => _ end] =>
        destruct (conversation_dict f r); simpl
    end.

(** * Facts *)

(** ** Text order *)

Lemma string_leb_refl (a : string) : (a <=? a)%string = true.
Proof.
  destruct (String.leb_total a a); assumption.
Qed.

Lemma string_leb_trans (a : string) :
  forall b c, (a <=? b)%string = true -> (b <=? c)%string = true ->
    (a <=? c)%string = true.
Proof.
  unfold String.leb.
  induction a as [|x a IH]; intros [|y b] [|z c]; simpl; try easy.
  unfold Ascii.compare.
  destruct (N.compare_spec (N_of_ascii x) (N_of_ascii y)) as [E1|L1|G1];
    destruct (N.compare_spec (N_of_ascii y) (N_of_ascii z)) as [E2|L2|G2];
    destruct (N.compare_spec (N_of_ascii x) (N_of_ascii z)) as [E3|L3|G3];
    try easy; try lia.
  apply IH.
Qed.

Lemma string_ltb_leb (a b : string) :
  (a <? b)%string = true -> (b <=? a)%string = false.
Proof.
  unfold String.ltb, String.leb. rewrite (String.compare_antisym a b).
  destruct (String.compare b a); simpl; easy.
Qed.

(** ** ORDER BY *)

Section OrderBy.

Context {A : Type}.
Variable le : A -> A -> bool.

Lemma insert_by_perm (x : A) (l : list A) :
  Permutation (insert_by le x l) (x :: l).
Proof.
  induction l as [|y l IH]; simpl.
  - apply Permutation_refl.
  - destruct (le x y).
    + apply Permutation_refl.
    + eapply Permutation_trans.
      * apply perm_skip, IH.
      * apply perm_swap.
Qed.

Lemma order_by_perm (l : list A) : Permutation (order_by le l) l.
Proof.
  induction l as [|x l IH]; simpl.
  - constructor.
  - eapply Permutation_trans.
    + apply insert_by_perm.
    + apply perm_skip, IH.
Qed.

Hypothesis le_total : forall a b, le a b = true \/ le b a = true.
Hypothesis le_trans :
  forall a b c, le a b = true -> le b c = true -> le a c = true.

Lemma insert_by_sorted (x : A) (l : list A) :
  StronglySorted (fun a b => le a b = true) l ->
  StronglySorted (fun a b => le a b = true) (insert_by le x l).
Proof.
  induction l as [|y l IH]; simpl; intros Hs.
  - constructor; constructor.
  - inversion Hs as [|? ? Hl Hy]; subst.
    destruct (le x y) eqn:E.
    + constructor; [assumption|].
      constructor; [exact E|].
      eapply Forall_impl; [|exact Hy].
      intros z Hz. exact (le_trans _ _ _ E Hz).
    + constructor; [apply IH; assumption|].
      assert (Hyx : le y x = true).
      { destruct (le_total x y) as [H|H]; [congruence | exact H]. }
      eapply Permutation_Forall.
      * apply Permutation_sym, insert_by_perm.
      * constructor; assumption.
Qed.

Lemma order_by_sorted (l : list A) :
  StronglySorted (fun a b => le a b = true) (order_by le l).
Proof.
  induction l as [|x l IH]; simpl.
  - constructor.
  - apply insert_by_sorted, IH.
Qed.

End OrderBy.


(** ** What each method does, call by call

    One equation per method: the outcome and the file after the call, by
    which engine call fails (0 is [sqlite3.connect], then the statements
    in order, then [conn.commit()]). *)

Section Runs.

Variable json_dumps : json -> string.
Variable json_loads : string -> option json.
Variable scan_conversations : list conversation_row -> list conversation_row.
Variable scan_messages : list message_row -> list message_row.

Lemma create_conversation_run conversation_id title metadata env db :
  create_conversation json_dumps conversation_id title metadata env db =
    if io_error env 0 then (Raise OperationalError, db)
    else if io_error env 1 then (Raise OperationalError, db)
    else if existsb (has_id conversation_id) (conversations db) then
      (Raise IntegrityError, db)
    else if io_error env 2 then (Raise OperationalError, db)
    else
      (Return {| cd_id := conversation_id; cd_title := title;
                 cd_created_at := datetime_now env 0;
                 cd_updated_at := datetime_now env 1;
                 cd_metadata := JObj (or_empty metadata) |},
       {| conversations :=
            conversations db ++
              [{| c_id := conversation_id; c_title := title;
                  c_created_at := CURRENT_TIMESTAMP env 1;
                  c_updated_at := CURRENT_TIMESTAMP env 1;
                  c_metadata :=
                    Some (json_dumps (JObj (or_empty metadata))) |}];
          messages := messages db;
          sqlite_sequence := sqlite_sequence db |}).
Proof.
  unfold create_conversation, insert_conversation. run_method.
  destruct (io_error env 0); [reflexivity|].
  destruct (io_error env 1); simpl; [reflexivity|].
  destruct (existsb (has_id conversation_id) (conversations db)); simpl;
    [reflexivity|].
  destruct (io_error env 2); reflexivity.
Qed.

Lemma get_conversation_run conversation_id env db :
  get_conversation json_loads conversation_id env db =
    if io_error env 0 then (Raise OperationalError, db)
    else if io_error env 1 then (Raise OperationalError, db)
    else
      match select_conversation conversation_id db with
      | Some r =>
          match conversation_dict json_loads r with
          | Return d => (Return (Some d), db)
          | Raise e => (Raise e, db)
          end
      | None => (Return None, db)
      end.
Proof.
  unfold get_conversation. run_method.
  destruct (io_error env 0); [reflexivity|].
  destruct (io_error env 1); simpl; [reflexivity|].
  destruct (select_conversation conversation_id db) as [r|]; simpl;
    [|reflexivity].
  destruct (conversation_dict json_loads r); reflexivity.
Qed.

Lemma get_all_conversations_run limit env db :
  get_all_conversations json_loads scan_conversations limit env db =
    if io_error env 0 then (Raise OperationalError, db)
    else if fits_int64 limit then
      if io_error env 1 then (Raise OperationalError, db)
      else
        match traverse (summary_dict json_loads)
                (select_all_conversations scan_conversations limit db) with
        | Return l => (Return l, db)
        | Raise e => (Raise e, db)
        end
    else (Raise OverflowError, db).
Proof.
  unfold get_all_conversations, bind_int.
  destruct (fits_int64 limit); run_method.
  2: destruct (io_error env 0); reflexivity.
  destruct (io_error env 0); [reflexivity|].
  destruct (io_error env 1); simpl; [reflexivity|].
  destruct (traverse _ _); reflexivity.
Qed.

Lemma add_message_run conversation_id role content metadata env db :
  add_message json_dumps conversation_id role content metadata env db =
    let last := Z.max (sqlite_sequence db) (max_rowid (messages db)) in
    if io_error env 0 then (Raise OperationalError, db)
    else if io_error env 1 then (Raise OperationalError, db)
    else if MAX_ROWID <=? last then (Raise OperationalError, db)
    else if io_error env 2 then (Raise OperationalError, db)
    else if io_error env 3 then (Raise OperationalError, db)
    else
      (Return {| md_id := last + 1; md_conversation_id := conversation_id;
                 md_role := role; md_content := content;
                 md_timestamp := datetime_now env 0;
                 md_metadata := JObj (or_empty metadata) |},
       {| conversations :=
            map (fun r =>
                   if has_id conversation_id r
                   then set_updated_at (CURRENT_TIMESTAMP env 2) r else r)
                (conversations db);
          messages :=
            messages db ++
              [{| m_id := last + 1; m_conversation_id := conversation_id;
                  m_role := role; m_content := content;
                  m_timestamp := CURRENT_TIMESTAMP env 1;
                  m_metadata :=
                    Some (json_dumps (JObj (or_empty metadata))) |}];
          sqlite_sequence := last + 1 |}).
Proof.
  unfold add_message, insert_message, update_updated_at, update_where.
  run_method.
  destruct (io_error env 0); [reflexivity|].
  destruct (io_error env 1); simpl; [reflexivity|].
  destruct (MAX_ROWID <=? _); simpl; [reflexivity|].
  destruct (io_error env 2); simpl; [reflexivity|].
  destruct (io_error env 3); reflexivity.
Qed.

Lemma get_messages_run conversation_id env db :
  get_messages json_loads scan_messages conversation_id env db =
    if io_error env 0 then (Raise OperationalError, db)
    else if io_error env 1 then (Raise OperationalError, db)
    else
      match traverse (message_dict json_loads)
              (select_messages scan_messages conversation_id db) with
      | Return l => (Return l, db)
      | Raise e => (Raise e, db)
      end.
Proof.
  unfold get_messages. run_method.
  destruct (io_error env 0); [reflexivity|].
  destruct (io_error env 1); simpl; [reflexivity|].
  destruct (traverse _ _); reflexivity.
Qed.

Lemma delete_conversation_run conversation_id env db :
  delete_conversation conversation_id env db =
    if io_error env 0 then (Raise OperationalError, db)
    else if io_error env 1 then (Raise OperationalError, db)
    else if io_error env 2 then (Raise OperationalError, db)
    else
      (Return (0 <? rowcount conversation_id db)%nat,
       {| conversations :=
            filter (fun r => negb (has_id conversation_id r))
                   (conversations db);
          messages := messages db;
          sqlite_sequence := sqlite_sequence db |}).
Proof.
  unfold delete_conversation, delete_where. run_method.
  destruct (io_error env 0); [reflexivity|].
  destruct (io_error env 1); simpl; [reflexivity|].
  destruct (io_error env 2); reflexivity.
Qed.

Lemma update_conversation_title_run conversation_id title env db :
  update_conversation_title conversation_id title env db =
    if io_error env 0 then (Raise OperationalError, db)
    else if io_error env 1 then (Raise OperationalError, db)
    else if io_error env 2 then (Raise OperationalError, db)
    else
      (Return (0 <? rowcount conversation_id db)%nat,
       update_where conversation_id
         (set_title title (CURRENT_TIMESTAMP env 1)) db).
Proof.
  unfold update_conversation_title, update_title. run_method.
  destruct (io_error env 0); [reflexivity|].
  destruct (io_error env 1); simpl; [reflexivity|].
  destruct (io_error env 2); reflexivity.
Qed.

End Runs.

(** ** Lists, rows and list comprehensions *)

Lemma has_id_true (conversation_id : string) (r : conversation_row) :
  has_id conversation_id r = true <-> c_id r = conversation_id.
Proof.
  unfold has_id. apply String.eqb_eq.
Qed.

Lemma has_id_false (conversation_id : string) (r : conversation_row) :
  has_id conversation_id r = false <-> c_id r <> conversation_id.
Proof.
  unfold has_id. apply String.eqb_neq.
Qed.

Lemma existsb_has_id (conversation_id : string) (rows : list conversation_row) :
  existsb (has_id conversation_id) rows = true <->
  In conversation_id (map c_id rows).
Proof.
  rewrite existsb_exists, in_map_iff. split.
  - intros [r [Hin Hid]]. exists r. split; [apply has_id_true|]; assumption.
  - intros [r [Hid Hin]]. exists r. split; [|apply has_id_true]; assumption.
Qed.

Lemma not_existsb_has_id (conversation_id : string)
    (rows : list conversation_row) :
  ~ In conversation_id (map c_id rows) ->
  existsb (has_id conversation_id) rows = false.
Proof.
  intros Hno. destruct (existsb _ rows) eqn:E; [|reflexivity].
  apply existsb_has_id in E. contradiction.
Qed.

Lemma filter_none {A : Type} (p : A -> bool) (l : list A) :
  existsb p l = false -> filter p l = [].
Proof.
  induction l as [|x l IH]; simpl; [reflexivity|].
  destruct (p x); simpl; [discriminate|exact IH].
Qed.

Lemma filter_all {A : Type} (p : A -> bool) (l : list A) :
  existsb p l = false -> filter (fun x => negb (p x)) l = l.
Proof.
  induction l as [|x l IH]; simpl; [reflexivity|].
  destruct (p x); simpl; [discriminate|].
  intros H. f_equal. exact (IH H).
Qed.

Lemma filter_perm {A : Type} (p : A -> bool) (l l' : list A) :
  Permutation l l' -> Permutation (filter p l) (filter p l').
Proof.
  induction 1 as [|x l l' _ IH|x y l|l l' l'' _ IH1 _ IH2]; simpl.
  - constructor.
  - destruct (p x); [apply perm_skip|]; exact IH.
  - destruct (p x), (p y); try apply Permutation_refl. apply perm_swap.
  - exact (Permutation_trans IH1 IH2).
Qed.

Lemma map_untouched {A : Type} (p : A -> bool) (f : A -> A) (l : list A) :
  existsb p l = false -> map (fun x => if p x then f x else x) l = l.
Proof.
  induction l as [|x l IH]; simpl; [reflexivity|].
  destruct (p x); simpl; [discriminate|].
  intros H. f_equal. exact (IH H).
Qed.

Lemma find_appended {A : Type} (p : A -> bool) (l : list A) (x : A) :
  existsb p l = false -> p x = true -> find p (l ++ [x]) = Some x.
Proof.
  induction l as [|y l IH]; simpl; intros Hl Hx.
  - rewrite Hx. reflexivity.
  - destruct (p y); simpl in *; [discriminate|]. exact (IH Hl Hx).
Qed.

Lemma Forall2_map_same {A : Type} (R : A -> A -> Prop) (f : A -> A)
    (l : list A) :
  (forall x, R x (f x)) -> Forall2 R l (map f l).
Proof.
  intros H. induction l as [|x l IH]; simpl; constructor; auto.
Qed.

Lemma database_eta (db : Database) :
  {| conversations := conversations db; messages := messages db;
     sqlite_sequence := sqlite_sequence db |} = db.
Proof.
  destruct db; reflexivity.
Qed.

Lemma traverse_Forall2 {A B : Type} (f : A -> outcome B) (l : list A) :
  forall l', traverse f l = Return l' ->
    Forall2 (fun x y => f x = Return y) l l'.
Proof.
  induction l as [|x l IH]; simpl; intros l' H.
  - injection H as <-. constructor.
  - destruct (f x) as [y|e] eqn:Ex; [|discriminate].
    destruct (traverse f l) as [ys|e]; [|discriminate].
    injection H as <-. constructor; [exact Ex|]. apply IH. reflexivity.
Qed.

Lemma traverse_total {A B : Type} (f : A -> outcome B) (l : list A) :
  Forall (fun x => exists y, f x = Return y) l ->
  exists l', traverse f l = Return l'.
Proof.
  induction 1 as [|x l [y Hy] _ [ys Hys]]; simpl.
  - exists []. reflexivity.
  - rewrite Hy, Hys. exists (y :: ys). reflexivity.
Qed.

Lemma max_rowid_bound (rows : list message_row) :
  Forall (fun r => m_id r <= max_rowid rows) rows.
Proof.
  induction rows as [|r rows IH]; simpl; constructor.
  - lia.
  - eapply Forall_impl; [|exact IH]. simpl. intros a Ha.
    fold (max_rowid rows). lia.
Qed.

(** * The claims *)

(** ** Creating and reading back a conversation *)

(** C4. When [create_conversation(id, t, m)] returns, a following
    [get_conversation(id)] on a working engine returns a record with title
    [t], with metadata equal to the document [m], and with [updated_at]
    equal to [created_at].  The codec is asked only to read back what it
    wrote for [m], and never to write the empty text. *)
Theorem create_then_get_conversation
    (json_dumps : json -> string) (json_loads : string -> option json)
    (conversation_id title : string) (m : Dict)
    (env env' : Env) (db db' : Database) (r : ConversationDict) :
  json_loads (json_dumps (JObj m)) = Some (JObj m) ->
  json_dumps (JObj m) <> "" ->
  create_conversation json_dumps conversation_id title (Some m) env db
    = (Return r, db') ->
  no_io_error env' ->
  exists c,
    get_conversation json_loads conversation_id env' db'
      = (Return (Some c), db') /\
    cd_id c = conversation_id /\
    cd_title c = title /\
    cd_metadata c = JObj m /\
    cd_updated_at c = cd_created_at c.
Proof.
  intros Hcodec Htext Hcreate Hio.
  rewrite create_conversation_run in Hcreate.
  destruct (io_error env 0); [discriminate|].
  destruct (io_error env 1); [discriminate|].
  destruct (existsb (has_id conversation_id) (conversations db)) eqn:Hfresh;
    [discriminate|].
  destruct (io_error env 2); [discriminate|].
  injection Hcreate as _ <-.
  assert (Hm : or_empty (Some m) = m) by (destruct m; reflexivity).
  simpl in Hm. rewrite !Hm.
  rewrite get_conversation_run, !Hio.
  unfold select_conversation; simpl.
  rewrite (find_appended _ _ _ Hfresh)
    by (apply has_id_true; reflexivity).
  unfold conversation_dict, loads_or_empty; simpl.
  destruct (json_dumps (JObj m)) as [|ch text] eqn:Etext;
    [contradiction Htext; reflexivity|].
  rewrite Hcodec.
  eexists. split; [reflexivity|]. simpl. repeat split; reflexivity.
Qed.

(** C4 on the reference codec: [{"k": "v", "n": 3}] stored with a new
    conversation reads back equal. *)
Lemma create_then_get_conversation_sample :
  exists c,
    get_conversation Json.loads "c1"
        (calm "2026-11-03 10:00:09" "2026-11-03T11:00:09.000100")
        one_conversation
      = (Return (Some c), one_conversation) /\
    cd_id c = "c1" /\
    cd_title c = "Plans" /\
    cd_metadata c = JObj sample_metadata /\
    cd_updated_at c = cd_created_at c.
Proof.
  apply (create_then_get_conversation Json.dumps Json.loads "c1" "Plans"
           sample_metadata
           (calm "2026-11-03 10:00:00" "2026-11-03T11:00:00.250000")
           (calm "2026-11-03 10:00:09" "2026-11-03T11:00:09.000100")
           empty_db one_conversation
           {| cd_id := "c1"; cd_title := "Plans";
              cd_created_at := "2026-11-03T11:00:00.250000";
              cd_updated_at := "2026-11-03T11:00:00.250000";
              cd_metadata := JObj sample_metadata |}).
  - vm_compute. reflexivity.
  - vm_compute. discriminate.
  - vm_compute. reflexivity.
  - intros k. reflexivity.
Defined.

(** C5. [create_conversation] under an id that is already stored raises
    and leaves the file as it was; the exception is the engine's
    [IntegrityError] (the primary key) unless the connection or the
    statement already failed on I/O. *)
Theorem create_conversation_duplicate_id
    (json_dumps : json -> string)
    (conversation_id title : string) (metadata : option Dict)
    (env : Env) (db : Database) :
  In conversation_id (map c_id (conversations db)) ->
  exists e,
    create_conversation json_dumps conversation_id title metadata env db
      = (Raise e, db) /\
    (io_error env 0 = false -> io_error env 1 = false ->
     e = IntegrityError).
Proof.
  intros Hin. apply existsb_has_id in Hin.
  rewrite create_conversation_run, Hin.
  destruct (io_error env 0).
  - exists OperationalError. split; [reflexivity|discriminate].
  - destruct (io_error env 1).
    + exists OperationalError. split; [reflexivity|discriminate].
    + exists IntegrityError. split; reflexivity.
Qed.

(** C5 at the store holding "c1": a second [create_conversation("c1")]
    raises [IntegrityError] and changes nothing. *)
Lemma create_conversation_duplicate_id_sample :
  In "c1" (map c_id (conversations one_conversation)) /\
  create_conversation Json.dumps "c1" "Again" None
      (calm "2026-11-03 10:00:09" "2026-11-03T11:00:09.000100")
      one_conversation
    = (Raise IntegrityError, one_conversation).
Proof.
  assert (Hin : In "c1" (map c_id (conversations one_conversation)))
    by (vm_compute; left; reflexivity).
  split; [exact Hin|].
  destruct (create_conversation_duplicate_id Json.dumps "c1" "Again" None
              (calm "2026-11-03 10:00:09" "2026-11-03T11:00:09.000100")
              one_conversation Hin) as [e [Hrun He]].
  rewrite Hrun, (He eq_refl eq_refl). reflexivity.
Defined.

(** ** Renaming a conversation *)

(** C10. [update_conversation_title(id, t)] on a stored id leaves every
    Message row and the id counter as they were, keeps the Conversation
    rows in place, changes no row under another id, and in the rows under
    [id] changes only [title] and [updated_at]; on a working engine it
    returns [True] and those two fields are [t] and the statement's
    [CURRENT_TIMESTAMP]. *)
Theorem update_conversation_title_frame
    (conversation_id title : string) (env : Env) (db : Database) :
  In conversation_id (map c_id (conversations db)) ->
  exists result db',
    update_conversation_title conversation_id title env db = (result, db') /\
    messages db' = messages db /\
    sqlite_sequence db' = sqlite_sequence db /\
    Forall2 (retitled conversation_id) (conversations db) (conversations db') /\
    (no_io_error env ->
     result = Return true /\
     Forall (fun r => c_id r = conversation_id ->
                      c_title r = title /\
                      c_updated_at r = CURRENT_TIMESTAMP env 1)
            (conversations db')).
Proof.
  intros Hin.
  assert (Hsame : Forall2 (retitled conversation_id)
                    (conversations db) (conversations db)).
  { rewrite <- (map_id (conversations db)) at 2.
    apply Forall2_map_same. intros r. repeat split; reflexivity. }
  assert (Hquiet : forall k, io_error env k = true -> ~ no_io_error env).
  { intros k Hk Hio. rewrite Hio in Hk. discriminate. }
  rewrite update_conversation_title_run.
  destruct (io_error env 0) eqn:E0;
    [exists (Raise OperationalError), db; do 3 (split; [reflexivity|]);
     split; [exact Hsame|]; intros Hio; destruct (Hquiet _ E0 Hio)|].
  destruct (io_error env 1) eqn:E1;
    [exists (Raise OperationalError), db; do 3 (split; [reflexivity|]);
     split; [exact Hsame|]; intros Hio; destruct (Hquiet _ E1 Hio)|].
  destruct (io_error env 2) eqn:E2;
    [exists (Raise OperationalError), db; do 3 (split; [reflexivity|]);
     split; [exact Hsame|]; intros Hio; destruct (Hquiet _ E2 Hio)|].
  eexists _, _. split; [reflexivity|]. simpl.
  do 2 (split; [reflexivity|]). split; [|intros _; split].
  - apply Forall2_map_same. intros r.
    destruct (has_id conversation_id r) eqn:Eid; repeat split; try reflexivity.
    apply has_id_true in Eid. intros Hother. contradiction.
  - f_equal. unfold rowcount.
    apply existsb_has_id, existsb_exists in Hin.
    destruct Hin as [r [Hr Hid]].
    assert (Hf : In r (filter (has_id conversation_id) (conversations db)))
      by (apply filter_In; split; assumption).
    destruct (filter _ _); [destruct Hf|reflexivity].
  - apply Forall_forall. intros r Hr Hid.
    apply in_map_iff in Hr. destruct Hr as [old [Hold _]].
    destruct (has_id conversation_id old) eqn:Eold.
    + subst r. split; reflexivity.
    + subst r. apply has_id_false in Eold. contradiction.
Qed.

(** C10 on the store holding "c1" and its two messages. *)
Lemma update_conversation_title_frame_sample :
  In "c1" (map c_id (conversations two_messages)) /\
  exists result db',
    update_conversation_title "c1" "Renamed"
        (calm "2026-11-03 10:00:09" "2026-11-03T11:00:09.000100")
        two_messages = (result, db') /\
    messages db' = messages two_messages /\
    sqlite_sequence db' = sqlite_sequence two_messages /\
    Forall2 (retitled "c1") (conversations two_messages) (conversations db').
Proof.
  assert (Hin : In "c1" (map c_id (conversations two_messages)))
    by (vm_compute; left; reflexivity).
  split; [exact Hin|].
  destruct (update_conversation_title_frame "c1" "Renamed"
              (calm "2026-11-03 10:00:09" "2026-11-03T11:00:09.000100")
              two_messages Hin)
    as (result & db' & Hrun & Hm & Hs & Hc & _).
  exists result, db'. repeat split; assumption.
Defined.

(** ** Message ids *)

Lemma NoDup_snoc {A : Type} (l : list A) (x : A) :
  NoDup l -> ~ In x l -> NoDup (l ++ [x]).
Proof.
  intros Hl Hx. apply (Permutation_NoDup (Permutation_cons_append l x)).
  constructor; assumption.
Qed.

Lemma next_rowid_fresh (db : Database) :
  ~ In (Z.max (sqlite_sequence db) (max_rowid (messages db)) + 1)
       (map m_id (messages db)).
Proof.
  intros Hin. apply in_map_iff in Hin. destruct Hin as [r [Hid Hr]].
  pose proof (max_rowid_bound (messages db)) as Hb.
  rewrite Forall_forall in Hb. specialize (Hb r Hr). lia.
Qed.

Section Calls.

Variable json_dumps : json -> string.
Variable json_loads : string -> option json.
Variable scan_conversations : list conversation_row -> list conversation_row.
Variable scan_messages : list message_row -> list message_row.

(** No call lowers the AUTOINCREMENT counter. *)
Lemma run_call_sequence (c : call) (env : Env) (db : Database) :
  sqlite_sequence db <=
  sqlite_sequence
    (run_call json_dumps json_loads scan_conversations scan_messages
       c env db).
Proof.
  destruct c; simpl;
    rewrite ?create_conversation_run, ?get_conversation_run,
      ?get_all_conversations_run, ?add_message_run, ?get_messages_run,
      ?delete_conversation_run, ?update_conversation_title_run;
    cbv zeta; by_cases; lia.
Qed.

Lemma run_calls_sequence (cs : list (call * Env)) :
  forall db,
    sqlite_sequence db <=
    sqlite_sequence
      (run_calls json_dumps json_loads scan_conversations scan_messages
         cs db).
Proof.
  induction cs as [|[c env] cs IH]; simpl; intros db; [lia|].
  pose proof (run_call_sequence c env db) as H1.
  specialize (IH (run_call json_dumps json_loads scan_conversations
                    scan_messages c env db)).
  lia.
Qed.

(** No call makes two Message rows share an id. *)
Lemma run_call_ids_unique (c : call) (env : Env) (db : Database) :
  NoDup (map m_id (messages db)) ->
  NoDup (map m_id (messages
           (run_call json_dumps json_loads scan_conversations scan_messages
              c env db))).
Proof.
  intros Hdb.
  destruct c; simpl;
    rewrite ?create_conversation_run, ?get_conversation_run,
      ?get_all_conversations_run, ?add_message_run, ?get_messages_run,
      ?delete_conversation_run, ?update_conversation_title_run;
    cbv zeta; by_cases; try assumption.
  rewrite map_app. simpl. apply NoDup_snoc; [assumption|].
  apply next_rowid_fresh.
Qed.

Lemma run_calls_ids_unique (cs : list (call * Env)) :
  forall db, NoDup (map m_id (messages db)) ->
    NoDup (map m_id (messages
             (run_calls json_dumps json_loads scan_conversations
                scan_messages cs db))).
Proof.
  induction cs as [|[c env] cs IH]; simpl; intros db Hdb; [assumption|].
  apply IH. apply run_call_ids_unique. assumption.
Qed.

End Calls.

(** [add_message] returns the id it leaves in the counter, above the
    counter it found. *)
Lemma add_message_id (json_dumps : json -> string)
    (conversation_id role content : string) (metadata : option Dict)
    (env : Env) (db db' : Database) (m : MessageDict) :
  add_message json_dumps conversation_id role content metadata env db
    = (Return m, db') ->
  sqlite_sequence db < md_id m /\ md_id m = sqlite_sequence db'.
Proof.
  rewrite add_message_run. cbv zeta. by_cases; try discriminate.
  intros H. injection H as <- <-. simpl. lia.
Qed.

(** C9. Of two [add_message] calls that both return, with any calls
    before, between and after them (other conversations, deletes, failed
    calls), the later one returns the strictly greater id; and at no point
    do two stored messages share an id. *)
Theorem message_ids_increase
    (json_dumps : json -> string) (json_loads : string -> option json)
    (scan_conversations : list conversation_row -> list conversation_row)
    (scan_messages : list message_row -> list message_row)
    (before between after : list (call * Env))
    (id1 role1 content1 : string) (metadata1 : option Dict) (env1 : Env)
    (id2 role2 content2 : string) (metadata2 : option Dict) (env2 : Env)
    (m1 m2 : MessageDict) (db1 db2 : Database) :
  add_message json_dumps id1 role1 content1 metadata1 env1
      (run_calls json_dumps json_loads scan_conversations scan_messages
         before empty_db)
    = (Return m1, db1) ->
  add_message json_dumps id2 role2 content2 metadata2 env2
      (run_calls json_dumps json_loads scan_conversations scan_messages
         between db1)
    = (Return m2, db2) ->
  md_id m1 < md_id m2 /\
  NoDup (map m_id (messages
           (run_calls json_dumps json_loads scan_conversations scan_messages
              after db2))).
Proof.
  intros H1 H2. split.
  - apply add_message_id in H1. apply add_message_id in H2.
    pose proof (run_calls_sequence json_dumps json_loads scan_conversations
                  scan_messages between db1).
    lia.
  - assert (E1 : db1 = run_call json_dumps json_loads scan_conversations
                         scan_messages
                         (AddMessage id1 role1 content1 metadata1) env1
                         (run_calls json_dumps json_loads scan_conversations
                            scan_messages before empty_db))
      by (simpl; rewrite H1; reflexivity).
    assert (E2 : db2 = run_call json_dumps json_loads scan_conversations
                         scan_messages
                         (AddMessage id2 role2 content2 metadata2) env2
                         (run_calls json_dumps json_loads scan_conversations
                            scan_messages between db1))
      by (simpl; rewrite H2; reflexivity).
    rewrite E2. apply run_calls_ids_unique, run_call_ids_unique.
    rewrite E1. apply run_calls_ids_unique, run_call_ids_unique.
    apply run_calls_ids_unique. constructor.
Qed.

(** C9 on a run in which the first conversation is deleted between the
    two calls and the second message goes to another conversation: the ids
    are 1 and 2. *)
Lemma message_ids_increase_sample :
  let env := calm "2026-11-03 10:00:09" "2026-11-03T11:00:09.000100" in
  let run := run_calls Json.dumps Json.loads rowid_order rowid_order in
  let before := [(CreateConversation "c1" "Plans" None, env)] in
  let between := [(DeleteConversation "c1", env);
                  (CreateConversation "c2" "Notes" None, env)] in
  exists m1 db1 m2 db2,
    add_message Json.dumps "c1" "human" "hi" None env (run before empty_db)
      = (Return m1, db1) /\
    add_message Json.dumps "c2" "human" "hi" None env (run between db1)
      = (Return m2, db2) /\
    md_id m1 = 1 /\ md_id m2 = 2 /\
    md_id m1 < md_id m2 /\
    NoDup (map m_id (messages (run [] db2))).
Proof.
  cbv zeta.
  eexists _, _, _, _.
  split; [vm_compute; reflexivity|].
  split; [vm_compute; reflexivity|].
  split; [reflexivity|]. split; [reflexivity|].
  eapply (message_ids_increase Json.dumps Json.loads rowid_order rowid_order
            [(CreateConversation "c1" "Plans" None,
              calm "2026-11-03 10:00:09" "2026-11-03T11:00:09.000100")]
            [(DeleteConversation "c1",
              calm "2026-11-03 10:00:09" "2026-11-03T11:00:09.000100");
             (CreateConversation "c2" "Notes" None,
              calm "2026-11-03 10:00:09" "2026-11-03T11:00:09.000100")]
            []
            "c1" "human" "hi" None
            (calm "2026-11-03 10:00:09" "2026-11-03T11:00:09.000100")
            "c2" "human" "hi" None
            (calm "2026-11-03 10:00:09" "2026-11-03T11:00:09.000100")).
  - vm_compute. reflexivity.
  - vm_compute. reflexivity.
Defined.

(** ** Adding a message *)

(** C3, as the code has it.  [add_message] either returns or raises.  When
    it returns, exactly one Message row has been appended, with the
    [CURRENT_TIMESTAMP] of the INSERT as its timestamp, and every
    Conversation row under the id has the [CURRENT_TIMESTAMP] of the UPDATE
    as its [updated_at]: the same text whenever the two statements read the
    same second.  When it raises, the file is as it was before the call;
    that also holds when the INSERT has run and the UPDATE or the commit
    fails. *)
Theorem add_message_all_or_nothing
    (json_dumps : json -> string)
    (conversation_id role content : string) (metadata : option Dict)
    (env : Env) (db : Database) :
  ((exists m row db',
      add_message json_dumps conversation_id role content metadata env db
        = (Return m, db') /\
      messages db' = (messages db ++ [row])%list /\
      m_id row = md_id m /\
      m_conversation_id row = conversation_id /\
      m_role row = role /\ m_content row = content /\
      m_metadata row = Some (json_dumps (JObj (or_empty metadata))) /\
      m_timestamp row = CURRENT_TIMESTAMP env 1 /\
      conversations db' =
        map (fun r => if has_id conversation_id r
                      then set_updated_at (CURRENT_TIMESTAMP env 2) r else r)
            (conversations db) /\
      (CURRENT_TIMESTAMP env 1 = CURRENT_TIMESTAMP env 2 ->
       Forall (fun r => c_id r = conversation_id ->
                        c_updated_at r = m_timestamp row)
              (conversations db')))
   \/
   (exists e,
      add_message json_dumps conversation_id role content metadata env db
        = (Raise e, db)))
  /\
  (io_error env 0 = false -> io_error env 1 = false ->
   io_error env 2 = true \/ io_error env 3 = true ->
   add_message json_dumps conversation_id role content metadata env db
     = (Raise OperationalError, db)).
Proof.
  rewrite add_message_run. cbv zeta. split.
  - destruct (io_error env 0); [right; eexists; reflexivity|].
    destruct (io_error env 1); [right; eexists; reflexivity|].
    destruct (MAX_ROWID <=? _); [right; eexists; reflexivity|].
    destruct (io_error env 2); [right; eexists; reflexivity|].
    destruct (io_error env 3); [right; eexists; reflexivity|].
    left. eexists _, _, _. split; [reflexivity|]. simpl.
    do 8 (split; [reflexivity|]).
    intros Hsame. apply Forall_forall. intros r Hr Hid.
    apply in_map_iff in Hr. destruct Hr as [old [Hold _]].
    destruct (has_id conversation_id old) eqn:Eold; subst r.
    + simpl. symmetry. exact Hsame.
    + apply has_id_false in Eold. contradiction.
  - intros -> -> [-> | ->].
    + destruct (MAX_ROWID <=? _); reflexivity.
    + destruct (MAX_ROWID <=? _); [reflexivity|].
      destruct (io_error env 2); reflexivity.
Qed.

(** C3 on a call whose UPDATE fails after the INSERT has run: the message
    is not kept. *)
Lemma add_message_all_or_nothing_sample :
  add_message Json.dumps "c1" "human" "hi" None
      (failing_at 2 "2026-11-03 10:00:05" "2026-11-03T11:00:05.500000")
      one_conversation
    = (Raise OperationalError, one_conversation).
Proof.
  apply (proj2 (add_message_all_or_nothing Json.dumps "c1" "human" "hi" None
                  (failing_at 2 "2026-11-03 10:00:05"
                     "2026-11-03T11:00:05.500000")
                  one_conversation)).
  - reflexivity.
  - reflexivity.
  - left. reflexivity.
Defined.

(** C3 as stated fails: the INSERT and the UPDATE read [CURRENT_TIMESTAMP]
    each on its own.  When the second begins between them, the message is
    stamped 10:00:59 and its conversation 10:01:00. *)
Lemma add_message_reads_the_clock_twice :
  exists m row conv,
    add_message Json.dumps "c1" "human" "hi" None
        (ticking "2026-11-03 10:00:59" "2026-11-03 10:01:00"
           "2026-11-03T11:00:59.999000")
        one_conversation
      = (Return m,
         {| conversations := [conv]; messages := [row];
            sqlite_sequence := 1 |}) /\
    m_conversation_id row = c_id conv /\
    m_timestamp row = "2026-11-03 10:00:59" /\
    c_updated_at conv = "2026-11-03 10:01:00" /\
    c_updated_at conv <> m_timestamp row.
Proof.
  eexists _, _, _. split; [vm_compute; reflexivity|]. simpl.
  repeat split. discriminate.
Qed.

(** ** What the writing methods return *)

(** C6, as the code has it.  The record [create_conversation] returns has
    the id and title of the row it wrote and the document whose dump the
    row holds; its [created_at] and [updated_at] are two readings of
    [datetime.now()], where the row has the [CURRENT_TIMESTAMP] of the
    INSERT in both.  Likewise the record [add_message] returns has the id,
    conversation id, role and content of its row and the document whose
    dump the row holds; its [timestamp] is a reading of [datetime.now()],
    the row's the [CURRENT_TIMESTAMP] of the INSERT. *)
Theorem returned_records_match_rows_but_for_timestamps
    (json_dumps : json -> string) :
  (forall conversation_id title metadata env db r db',
     create_conversation json_dumps conversation_id title metadata env db
       = (Return r, db') ->
     exists row,
       conversations db' = (conversations db ++ [row])%list /\
       select_conversation conversation_id db' = Some row /\
       cd_id r = c_id row /\
       cd_title r = c_title row /\
       c_metadata row = Some (json_dumps (cd_metadata r)) /\
       cd_created_at r = datetime_now env 0 /\
       cd_updated_at r = datetime_now env 1 /\
       c_created_at row = CURRENT_TIMESTAMP env 1 /\
       c_updated_at row = CURRENT_TIMESTAMP env 1)
  /\
  (forall conversation_id role content metadata env db r db',
     add_message json_dumps conversation_id role content metadata env db
       = (Return r, db') ->
     exists row,
       messages db' = (messages db ++ [row])%list /\
       md_id r = m_id row /\
       md_conversation_id r = m_conversation_id row /\
       md_role r = m_role row /\
       md_content r = m_content row /\
       m_metadata row = Some (json_dumps (md_metadata r)) /\
       md_timestamp r = datetime_now env 0 /\
       m_timestamp row = CURRENT_TIMESTAMP env 1).
Proof.
  split.
  - intros conversation_id title metadata env db r db'.
    rewrite create_conversation_run.
    destruct (io_error env 0); [discriminate|].
    destruct (io_error env 1); [discriminate|].
    destruct (existsb _ _) eqn:Hfresh; [discriminate|].
    destruct (io_error env 2); [discriminate|].
    intros H. injection H as <- <-.
    eexists. split; [reflexivity|]. split.
    + unfold select_conversation. simpl.
      apply (find_appended _ _ _ Hfresh). apply has_id_true. reflexivity.
    + simpl. repeat split; reflexivity.
  - intros conversation_id role content metadata env db r db'.
    rewrite add_message_run. cbv zeta.
    destruct (io_error env 0); [discriminate|].
    destruct (io_error env 1); [discriminate|].
    destruct (MAX_ROWID <=? _); [discriminate|].
    destruct (io_error env 2); [discriminate|].
    destruct (io_error env 3); [discriminate|].
    intros H. injection H as <- <-.
    eexists. split; [reflexivity|]. simpl. repeat split; reflexivity.
Qed.

(** C6 on the first conversation of a store. *)
Lemma returned_records_match_rows_sample :
  exists r db' row,
    create_conversation Json.dumps "c1" "Plans" (Some sample_metadata)
        (calm "2026-11-03 10:00:00" "2026-11-03T11:00:00.250000") empty_db
      = (Return r, db') /\
    conversations db' = (conversations empty_db ++ [row])%list /\
    cd_id r = c_id row /\ cd_title r = c_title row /\
    c_metadata row = Some (Json.dumps (cd_metadata r)).
Proof.
  eexists _, _.
  destruct (proj1 (returned_records_match_rows_but_for_timestamps Json.dumps)
              "c1" "Plans" (Some sample_metadata)
              (calm "2026-11-03 10:00:00" "2026-11-03T11:00:00.250000")
              empty_db _ _ eq_refl)
    as (row & H1 & _ & H2 & H3 & H4 & _).
  exists row. repeat split; assumption.
Defined.

(** C6 as stated fails: the record returned for a new conversation carries
    the application's local time, the stored row the engine's UTC second,
    so reading the row back gives another record. *)
Lemma returned_timestamps_are_not_the_stored_ones :
  exists r row,
    create_conversation Json.dumps "c1" "Plans" (Some sample_metadata)
        (calm "2026-11-03 10:00:00" "2026-11-03T11:00:00.250000") empty_db
      = (Return r,
         {| conversations := [row]; messages := [];
            sqlite_sequence := 0 |}) /\
    cd_created_at r = "2026-11-03T11:00:00.250000" /\
    c_created_at row = "2026-11-03 10:00:00" /\
    conversation_dict Json.loads row <> Return r.
Proof.
  eexists _, _. split; [vm_compute; reflexivity|].
  split; [reflexivity|]. split; [reflexivity|].
  vm_compute. discriminate.
Qed.

(** ** Deleting a conversation *)

(** The DELETE statement removes the messages of the conversation on a
    connection that enforces foreign keys. *)
Lemma delete_where_cascades (conversation_id now : string) (db db' : Database)
    (n : nat) :
  delete_where conversation_id now true db = Return (n, db') ->
  (0 < n)%nat ->
  filter (in_conversation conversation_id) (messages db') = [].
Proof.
  unfold delete_where. intros H Hn. injection H as <- <-. simpl.
  apply Nat.ltb_lt in Hn. rewrite Hn.
  induction (messages db) as [|m l IH]; simpl; [reflexivity|].
  destruct (in_conversation conversation_id m) eqn:E; simpl; [exact IH|].
  rewrite E. exact IH.
Qed.

(** [delete_conversation] runs it on a connection that does not: no call
    removes a Message row. *)
Lemma delete_conversation_keeps_messages (conversation_id : string)
    (env : Env) (db : Database) :
  messages (snd (delete_conversation conversation_id env db)) = messages db.
Proof.
  rewrite delete_conversation_run. by_cases; reflexivity.
Qed.

(** C1 fails on the code.  On the store holding "c1" and its two messages,
    [delete_conversation("c1")] returns [True] and removes the Conversation
    row, and both Message rows stay: [get_messages("c1")] still returns
    them, and they belong to no conversation. *)
Theorem delete_conversation_leaves_orphans :
  let env := calm "2026-11-03 10:00:09" "2026-11-03T11:00:09.000100" in
  exists db' l,
    delete_conversation "c1" env two_messages = (Return true, db') /\
    conversations db' = [] /\
    messages db' = messages two_messages /\
    get_messages Json.loads rowid_order "c1" env db' = (Return l, db') /\
    map md_id l = [1; 2] /\
    ~ no_orphans db'.
Proof.
  cbv zeta. eexists _, _.
  split; [vm_compute; reflexivity|].
  split; [reflexivity|]. split; [reflexivity|].
  split; [vm_compute; reflexivity|]. split; [reflexivity|].
  intros H.
  specialize (H {| m_id := 1; m_conversation_id := "c1"; m_role := "human";
                   m_content := "hi"; m_timestamp := "2026-11-03 10:00:05";
                   m_metadata := Some "{}" |}).
  simpl in H. discriminate H. left. reflexivity.
Qed.

(** ** Sorted query results *)

Lemma string_ltb_leb_true (a b : string) :
  (a <? b)%string = true -> (a <=? b)%string = true.
Proof.
  unfold String.ltb, String.leb. destruct (String.compare a b); easy.
Qed.

Lemma updated_desc_total (x y : conversation_row * Z) :
  updated_desc x y = true \/ updated_desc y x = true.
Proof.
  unfold updated_desc. apply String.leb_total.
Qed.

Lemma updated_desc_trans (x y z : conversation_row * Z) :
  updated_desc x y = true -> updated_desc y z = true ->
  updated_desc x z = true.
Proof.
  unfold updated_desc. intros Hxy Hyz.
  exact (string_leb_trans _ _ _ Hyz Hxy).
Qed.

Lemma timestamp_asc_total (x y : message_row) :
  timestamp_asc x y = true \/ timestamp_asc y x = true.
Proof.
  unfold timestamp_asc. apply String.leb_total.
Qed.

Lemma timestamp_asc_trans (x y z : message_row) :
  timestamp_asc x y = true -> timestamp_asc y z = true ->
  timestamp_asc x z = true.
Proof.
  unfold timestamp_asc. apply string_leb_trans.
Qed.

Lemma StronglySorted_firstn {A : Type} (R : A -> A -> Prop) (n : nat) :
  forall l, StronglySorted R l -> StronglySorted R (firstn n l).
Proof.
  induction n as [|n IH]; intros l Hl; simpl; [constructor|].
  destruct l as [|x l]; [constructor|].
  inversion Hl as [|? ? Hs Hx]; subst.
  constructor; [apply IH; assumption|].
  rewrite Forall_forall in *. intros y Hy. apply Hx.
  rewrite <- (firstn_skipn n l). apply in_or_app. left. exact Hy.
Qed.

Lemma StronglySorted_map {A B : Type} (R : B -> B -> Prop) (f : A -> B)
    (l : list A) :
  StronglySorted (fun x y => R (f x) (f y)) l -> StronglySorted R (map f l).
Proof.
  induction 1 as [|x l _ IH Hx]; simpl; constructor; [exact IH|].
  rewrite Forall_forall in *. intros y Hy.
  apply in_map_iff in Hy. destruct Hy as [z [<- Hz]]. apply Hx, Hz.
Qed.

Lemma StronglySorted_Forall2 {A B : Type} (P : A -> A -> Prop)
    (Q : B -> B -> Prop) (R : A -> B -> Prop) :
  (forall a b a' b', R a a' -> R b b' -> P a b -> Q a' b') ->
  forall l l', Forall2 R l l' -> StronglySorted P l -> StronglySorted Q l'.
Proof.
  intros Hpq l l' H2. induction H2 as [|a a' l l' Ha H2 IH]; intros Hs.
  - constructor.
  - inversion Hs as [|? ? Hl Hall]; subst.
    constructor; [apply IH; exact Hl|].
    clear IH Hs Hl. induction H2 as [|b b' l l' Hb _ IH]; constructor.
    + inversion Hall; subst. eapply Hpq; eassumption.
    + apply IH. inversion Hall; assumption.
Qed.

Lemma Forall2_map_left {A B C : Type} (R : B -> C -> Prop) (f : A -> B)
    (l : list A) :
  forall l', Forall2 R (map f l) l' -> Forall2 (fun x y => R (f x) y) l l'.
Proof.
  induction l as [|x l IH]; simpl; intros l' H; inversion H; subst;
    constructor; auto.
Qed.

Lemma Forall2_length_eq {A B : Type} (R : A -> B -> Prop) (l : list A)
    (l' : list B) :
  Forall2 R l l' -> length l = length l'.
Proof.
  induction 1; simpl; congruence.
Qed.

Lemma summary_dict_summarises (json_loads : string -> option json)
    (db : Database) (r : conversation_row) (s : ConversationSummary) :
  summary_dict json_loads (r, message_count db r) = Return s ->
  summarises json_loads db r s.
Proof.
  unfold summary_dict, summarises, message_count. simpl.
  destruct (loads_or_empty json_loads (c_metadata r)) as [doc|e];
    [|discriminate].
  intros H. injection H as <-. simpl. repeat split; reflexivity.
Qed.

Lemma message_dict_reads_as (json_loads : string -> option json)
    (r : message_row) (d : MessageDict) :
  message_dict json_loads r = Return d -> reads_as json_loads r d.
Proof.
  unfold message_dict, reads_as.
  destruct (loads_or_empty json_loads (m_metadata r)) as [doc|e];
    [|discriminate].
  intros H. injection H as <-. simpl. repeat split; reflexivity.
Qed.

(** The rows of the list query before [LIMIT]: every conversation once,
    latest [updated_at] first, each with its count. *)
Lemma select_all_conversations_rows
    (scan_conversations : list conversation_row -> list conversation_row)
    (db : Database) :
  (forall rows, Permutation (scan_conversations rows) rows) ->
  exists rows,
    order_by updated_desc
      (map (fun r => (r, message_count db r))
           (scan_conversations (conversations db)))
      = map (fun r => (r, message_count db r)) rows /\
    Permutation rows (conversations db) /\
    StronglySorted conversation_row_ge rows.
Proof.
  intros Hscan.
  set (pairs := map (fun r => (r, message_count db r))
                    (scan_conversations (conversations db))).
  pose proof (order_by_perm updated_desc pairs) as Hperm.
  pose proof (order_by_sorted updated_desc updated_desc_total
                updated_desc_trans pairs) as Hsorted.
  exists (map fst (order_by updated_desc pairs)). split; [|split].
  - assert (Hall : Forall (fun p => (fst p, message_count db (fst p)) = p)
                     (order_by updated_desc pairs)).
    { eapply Permutation_Forall; [apply Permutation_sym, Hperm|].
      unfold pairs. apply Forall_forall. intros p Hp.
      apply in_map_iff in Hp. destruct Hp as [r [<- _]]. reflexivity. }
    clear Hperm Hsorted.
    induction Hall as [|p l Hp _ IH]; simpl; [reflexivity|].
    rewrite Hp. f_equal. exact IH.
  - eapply Permutation_trans; [apply Permutation_map, Hperm|].
    unfold pairs. rewrite map_map. simpl. rewrite map_id. apply Hscan.
  - apply StronglySorted_map. exact Hsorted.
Qed.

(** ** Listing conversations *)

(** C7, as the code has it.  On a working engine and a store whose
    metadata texts decode, for a limit [n] from 0 up to the largest SQLite
    integer, [get_all_conversations(n)] returns the first [n] of the
    conversations taken latest [updated_at] first (all of them when there
    are fewer), each with the columns of its row and the number of Message
    rows under its id, 0 when there is none.  With [n = 1] on a store that
    has conversations the result is one record, and no conversation has a
    later [updated_at]. *)
Theorem get_all_conversations_latest_first
    (json_loads : string -> option json)
    (scan_conversations : list conversation_row -> list conversation_row)
    (limit : Z) (env : Env) (db : Database) :
  (forall rows, Permutation (scan_conversations rows) rows) ->
  decodable json_loads db ->
  no_io_error env ->
  0 <= limit <= MAX_ROWID ->
  exists rows l,
    get_all_conversations json_loads scan_conversations limit env db
      = (Return l, db) /\
    Permutation rows (conversations db) /\
    StronglySorted conversation_row_ge rows /\
    Forall2 (summarises json_loads db) (firstn (Z.to_nat limit) rows) l /\
    StronglySorted updated_at_ge l /\
    length l = Nat.min (Z.to_nat limit) (length (conversations db)) /\
    (limit = 1 -> conversations db <> [] ->
     exists s, l = [s] /\
       Forall (fun r => (c_updated_at r <=? cs_updated_at s)%string = true)
              (conversations db)).
Proof.
  intros Hscan [Hdec _] Hio Hlimit.
  destruct (select_all_conversations_rows scan_conversations db Hscan)
    as (rows & Hrows & Hperm & Hsorted).
  assert (Hfits : fits_int64 limit = true).
  { unfold fits_int64. apply andb_true_intro.
    split; apply Z.leb_le; unfold MAX_ROWID in *; lia. }
  assert (Hpos : (limit <? 0) = false) by (apply Z.ltb_ge; lia).
  rewrite get_all_conversations_run, !Hio, Hfits.
  unfold select_all_conversations, apply_limit.
  rewrite Hpos, Hrows, firstn_map.
  set (top := firstn (Z.to_nat limit) rows).
  assert (Htop : forall r, In r top -> In r (conversations db)).
  { intros r Hr. apply (Permutation_in _ Hperm).
    rewrite <- (firstn_skipn (Z.to_nat limit) rows).
    apply in_or_app. left. exact Hr. }
  destruct (traverse_total (summary_dict json_loads)
              (map (fun r => (r, message_count db r)) top)) as [l Hl].
  { apply Forall_forall. intros p Hp.
    apply in_map_iff in Hp. destruct Hp as [r [<- Hr]].
    rewrite Forall_forall in Hdec.
    destruct (Hdec r (Htop r Hr)) as [doc Hdoc].
    unfold summary_dict. simpl. rewrite Hdoc. eexists. reflexivity. }
  rewrite Hl. exists rows, l.
  assert (Hsum : Forall2 (summarises json_loads db) top l).
  { apply traverse_Forall2, Forall2_map_left in Hl.
    eapply Forall2_impl; [|exact Hl].
    intros r s. apply summary_dict_summarises. }
  assert (Hlen : length l = Nat.min (Z.to_nat limit)
                              (length (conversations db))).
  { rewrite <- (Forall2_length_eq _ _ _ Hsum). unfold top.
    rewrite length_firstn, (Permutation_length Hperm). reflexivity. }
  split; [reflexivity|]. split; [exact Hperm|]. split; [exact Hsorted|].
  split; [exact Hsum|]. split; [|split; [exact Hlen|]].
  - apply (StronglySorted_Forall2 conversation_row_ge updated_at_ge
             (summarises json_loads db)) with (l := top).
    + intros a b a' b' (_ & _ & _ & Ha & _) (_ & _ & _ & Hb & _).
      unfold conversation_row_ge, updated_at_ge. rewrite Ha, Hb. tauto.
    + exact Hsum.
    + apply StronglySorted_firstn. exact Hsorted.
  - intros -> Hsome.
    destruct rows as [|r0 rest].
    { apply Permutation_nil in Hperm. contradiction. }
    unfold top in Hsum. simpl in Hsum.
    inversion Hsum as [|? s ? l' Hr0 Hnil]; subst. inversion Hnil; subst.
    exists s. split; [reflexivity|].
    destruct Hr0 as (_ & _ & _ & Hup & _). rewrite Hup.
    eapply Permutation_Forall; [exact Hperm|].
    inversion Hsorted as [|? ? _ Hall]; subst.
    constructor; [apply string_leb_refl|exact Hall].
Qed.

(** C7 with [limit=1] on a store of three conversations. *)
Lemma get_all_conversations_latest_first_sample :
  let env := calm "2026-11-03 10:00:09" "2026-11-03T11:00:09.000100" in
  exists rows l,
    get_all_conversations Json.loads rowid_order 1 env three_conversations
      = (Return l, three_conversations) /\
    Permutation rows (conversations three_conversations) /\
    StronglySorted conversation_row_ge rows /\
    Forall2 (summarises Json.loads three_conversations)
            (firstn (Z.to_nat 1) rows) l /\
    StronglySorted updated_at_ge l /\
    length l = Nat.min (Z.to_nat 1)
                 (length (conversations three_conversations)) /\
    (1 = 1 -> conversations three_conversations <> [] ->
     exists s, l = [s] /\
       Forall (fun r => (c_updated_at r <=? cs_updated_at s)%string = true)
              (conversations three_conversations)).
Proof.
  apply (get_all_conversations_latest_first Json.loads rowid_order 1
           (calm "2026-11-03 10:00:09" "2026-11-03T11:00:09.000100")
           three_conversations).
  - intros rows. apply Permutation_refl.
  - split; repeat constructor; eexists; vm_compute; reflexivity.
  - intros k. reflexivity.
  - unfold MAX_ROWID. lia.
Defined.

(** C7 as stated fails for a negative limit, which SQLite reads as no
    limit: [get_all_conversations(-1)] returns all three conversations. *)
Lemma get_all_conversations_negative_limit :
  exists l,
    get_all_conversations Json.loads rowid_order (-1)
        (calm "2026-11-03 10:00:09" "2026-11-03T11:00:09.000100")
        three_conversations
      = (Return l, three_conversations) /\
    map cs_id l = ["c1"; "c3"; "c2"] /\
    ~ (Z.of_nat (length l) <= -1).
Proof.
  eexists. split; [vm_compute; reflexivity|]. split; [reflexivity|].
  simpl. lia.
Qed.

(** ** Reading the messages of a conversation *)

Lemma select_messages_rows
    (scan_messages : list message_row -> list message_row)
    (conversation_id : string) (db : Database) :
  (forall rows, Permutation (scan_messages rows) rows) ->
  Permutation (select_messages scan_messages conversation_id db)
              (filter (in_conversation conversation_id) (messages db)) /\
  StronglySorted message_row_le
    (select_messages scan_messages conversation_id db).
Proof.
  intros Hscan. unfold select_messages. split.
  - eapply Permutation_trans; [apply order_by_perm|].
    apply filter_perm, Hscan.
  - apply (order_by_sorted timestamp_asc timestamp_asc_total
             timestamp_asc_trans).
Qed.

Lemma string_leb_cases (a b : string) :
  (a <=? b)%string = true -> (a <? b)%string = true \/ a = b.
Proof.
  unfold String.leb, String.ltb.
  destruct (String.compare a b) eqn:E; intros H.
  - right. apply String.compare_eq_iff. exact E.
  - left. reflexivity.
  - discriminate H.
Qed.

Lemma string_leb_false (a b : string) :
  (a <=? b)%string = false -> (b <? a)%string = true.
Proof.
  unfold String.leb, String.ltb. rewrite (String.compare_antisym a b).
  destruct (String.compare b a); simpl; easy.
Qed.

Lemma row_order_of_leb (x z : message_row) :
  (m_timestamp x <=? m_timestamp z)%string = true ->
  m_id x <= m_id z ->
  row_timestamp_then_id x z.
Proof.
  intros Hle Hid. destruct (string_leb_cases _ _ Hle) as [Hlt | Heq].
  - left. exact Hlt.
  - right. split; assumption.
Qed.

Lemma row_order_leb (x z : message_row) :
  row_timestamp_then_id x z ->
  (m_timestamp x <=? m_timestamp z)%string = true.
Proof.
  intros [Hlt | [Heq _]].
  - apply string_ltb_leb_true, Hlt.
  - rewrite Heq. apply string_leb_refl.
Qed.

Lemma row_order_antisym (x z : message_row) :
  row_timestamp_then_id x z -> row_timestamp_then_id z x ->
  m_id x = m_id z.
Proof.
  intros [Hxz | [Exz Hxz]] [Hzx | [Ezx Hzx]].
  - apply string_ltb_leb in Hxz. apply string_ltb_leb_true in Hzx.
    congruence.
  - rewrite Ezx in Hxz. apply string_ltb_leb in Hxz.
    rewrite string_leb_refl in Hxz. discriminate.
  - rewrite Exz in Hzx. apply string_ltb_leb in Hzx.
    rewrite string_leb_refl in Hzx. discriminate.
  - lia.
Qed.

(** Sorting by timestamp keeps rows of equal timestamp in the order they
    were visited: a row put into a sorted list goes before the first row
    that is not earlier. *)
Lemma insert_by_timestamp_then_id (x : message_row)
    (sorted : list message_row) :
  StronglySorted row_timestamp_then_id sorted ->
  Forall (fun y => m_id x < m_id y) sorted ->
  StronglySorted row_timestamp_then_id (insert_by timestamp_asc x sorted).
Proof.
  induction sorted as [|y sorted IH]; simpl; intros Hs Hid.
  - repeat constructor.
  - inversion Hs as [|? ? Hrest Hy]; subst.
    inversion Hid as [|? ? Hxy Hidrest]; subst.
    destruct (timestamp_asc x y) eqn:E.
    + constructor; [constructor; assumption|]. constructor.
      * apply row_order_of_leb; [exact E|lia].
      * rewrite Forall_forall in *. intros z Hz.
        apply row_order_of_leb.
        -- apply (string_leb_trans _ (m_timestamp y)); [exact E|].
           apply row_order_leb, Hy, Hz.
        -- specialize (Hidrest z Hz). lia.
    + constructor; [apply IH; assumption|].
      eapply Permutation_Forall; [apply Permutation_sym, insert_by_perm|].
      constructor; [|exact Hy]. left. apply string_leb_false. exact E.
Qed.

Lemma order_by_timestamp_then_id (visited : list message_row) :
  StronglySorted (fun x y => m_id x < m_id y) visited ->
  StronglySorted row_timestamp_then_id (order_by timestamp_asc visited).
Proof.
  induction visited as [|x visited IH]; simpl; intros Hs; [constructor|].
  inversion Hs as [|? ? Hrest Hx]; subst.
  apply insert_by_timestamp_then_id; [apply IH, Hrest|].
  eapply Permutation_Forall; [apply Permutation_sym, order_by_perm|].
  exact Hx.
Qed.

Lemma rowid_order_kept_by_where (conversation_id : string)
    (rows : list message_row) :
  StronglySorted (fun x y => m_id x < m_id y) rows ->
  StronglySorted (fun x y => m_id x < m_id y)
    (filter (in_conversation conversation_id) rows).
Proof.
  induction rows as [|r rows IH]; simpl; intros Hs; [constructor|].
  inversion Hs as [|? ? Hrest Hr]; subst.
  destruct (in_conversation conversation_id r); [|apply IH, Hrest].
  constructor; [apply IH, Hrest|].
  rewrite Forall_forall in *. intros y Hy.
  apply filter_In in Hy. apply Hr, Hy.
Qed.

Lemma same_id_same_row (rows : list message_row) (a b : message_row) :
  StronglySorted (fun x y => m_id x < m_id y) rows ->
  In a rows -> In b rows -> m_id a = m_id b -> a = b.
Proof.
  induction rows as [|r rows IH]; simpl; intros Hs Ha Hb Hid;
    [destruct Ha|].
  inversion Hs as [|? ? Hrest Hr]; subst. rewrite Forall_forall in Hr.
  destruct Ha as [<- | Ha], Hb as [<- | Hb].
  - reflexivity.
  - specialize (Hr b Hb). lia.
  - specialize (Hr a Ha). lia.
  - exact (IH Hrest Ha Hb Hid).
Qed.

(** A list sorted by timestamp and then id is the only such listing of its
    rows. *)
Lemma sorted_rows_unique (rows : list message_row) :
  (forall a b, In a rows -> In b rows -> m_id a = m_id b -> a = b) ->
  StronglySorted row_timestamp_then_id rows ->
  forall rows',
    Permutation rows' rows ->
    StronglySorted row_timestamp_then_id rows' ->
    rows' = rows.
Proof.
  induction rows as [|x rows IH]; intros Hinj Hs rows' Hperm Hs'.
  - apply Permutation_sym, Permutation_nil in Hperm. exact Hperm.
  - destruct rows' as [|y rows'].
    { apply Permutation_nil in Hperm. discriminate Hperm. }
    inversion Hs as [|? ? Hrest Hx]; subst.
    inversion Hs' as [|? ? Hrest' Hy]; subst.
    rewrite Forall_forall in Hx, Hy.
    assert (Hyin : In y (x :: rows))
      by (apply (Permutation_in _ Hperm); left; reflexivity).
    assert (Hxin : In x (y :: rows'))
      by (apply (Permutation_in _ (Permutation_sym Hperm)); left;
          reflexivity).
    assert (Hsame : y = x).
    { destruct Hyin as [Heq | Hyin]; [symmetry; exact Heq|].
      destruct Hxin as [Heq | Hxin]; [exact Heq|].
      apply Hinj; [right; exact Hyin|left; reflexivity|].
      apply row_order_antisym; [apply Hy, Hxin|apply Hx, Hyin]. }
    subst y. f_equal. apply IH.
    + intros a b Ha Hb. apply Hinj; right; assumption.
    + exact Hrest.
    + exact (Permutation_cons_inv Hperm).
    + exact Hrest'.
Qed.

Lemma sorted_snoc {A : Type} (R : A -> A -> Prop) (l : list A) (x : A) :
  StronglySorted R l -> Forall (fun y => R y x) l ->
  StronglySorted R (l ++ [x]).
Proof.
  induction l as [|y l IH]; simpl; intros Hs Hx.
  - repeat constructor.
  - inversion Hs as [|? ? Hrest Hy]; subst.
    inversion Hx as [|? ? Hyx Hlx]; subst.
    constructor; [apply IH; assumption|].
    apply Forall_app. split; [exact Hy|]. constructor; [exact Hyx|constructor].
Qed.

Section Reachable.

Variable json_dumps : json -> string.
Variable json_loads : string -> option json.
Variable scan_conversations : list conversation_row -> list conversation_row.
Variable scan_messages : list message_row -> list message_row.

(** Every call keeps the messages table in rowid order: a new row gets a
    rowid above all the stored ones and goes last. *)
Lemma run_call_rowid_ordered (c : call) (env : Env) (db : Database) :
  rowid_ordered db ->
  rowid_ordered
    (run_call json_dumps json_loads scan_conversations scan_messages
       c env db).
Proof.
  unfold rowid_ordered. intros Hdb.
  destruct c; simpl;
    rewrite ?create_conversation_run, ?get_conversation_run,
      ?get_all_conversations_run, ?add_message_run, ?get_messages_run,
      ?delete_conversation_run, ?update_conversation_title_run;
    cbv zeta; by_cases; try assumption.
  apply sorted_snoc; [assumption|]. simpl.
  eapply Forall_impl; [|apply max_rowid_bound].
  simpl. intros r Hr. lia.
Qed.

Lemma run_calls_rowid_ordered (cs : list (call * Env)) :
  forall db, rowid_ordered db ->
    rowid_ordered
      (run_calls json_dumps json_loads scan_conversations scan_messages
         cs db).
Proof.
  induction cs as [|[c env] cs IH]; simpl; intros db Hdb; [assumption|].
  apply IH, run_call_rowid_ordered, Hdb.
Qed.

(** Calls that only read leave the file as it is. *)
Lemma run_calls_reads (cs : list (call * Env)) :
  forall db, Forall (fun ce => is_read (fst ce) = true) cs ->
    run_calls json_dumps json_loads scan_conversations scan_messages cs db
      = db.
Proof.
  induction cs as [|[c env] cs IH]; simpl; intros db Hcs; [reflexivity|].
  inversion Hcs as [|? ? Hc Hrest]; subst. simpl in Hc.
  assert (Hstep : run_call json_dumps json_loads scan_conversations
                    scan_messages c env db = db).
  { destruct c; simpl in *; try discriminate Hc;
      rewrite ?get_conversation_run, ?get_all_conversations_run,
        ?get_messages_run; by_cases; reflexivity. }
  rewrite Hstep. apply IH, Hrest.
Qed.

End Reachable.

(** C2, as the code has it.  The store opens default connections, on which
    rows are visited by ascending rowid.  On every store reached from a
    fresh one by calls of the store (working engine, metadata texts that
    decode), [get_messages(id)] returns every Message row stored under
    [id] once, as a dict with the row's columns, sorted by ascending
    timestamp text, rows of equal timestamp by ascending id; that listing
    is the only one of these rows in that order, and the same list comes
    back from a later call, with other reads in between.  After two
    [add_message] calls to a conversation that had no message,
    [get_messages] returns exactly those two records, first call first,
    when the second INSERT did not read an earlier [CURRENT_TIMESTAMP]
    than the first. *)
Theorem get_messages_by_timestamp_then_id
    (json_dumps : json -> string) (json_loads : string -> option json)
    (scan_conversations : list conversation_row -> list conversation_row) :
  (forall (cs : list (call * Env)) (conversation_id : string) (env : Env),
     let db := run_calls json_dumps json_loads scan_conversations
                 rowid_order cs (_init_db None) in
     decodable json_loads db ->
     no_io_error env ->
     exists rows l,
       get_messages json_loads rowid_order conversation_id env db
         = (Return l, db) /\
       Permutation rows
         (filter (in_conversation conversation_id) (messages db)) /\
       Forall2 (reads_as json_loads) rows l /\
       StronglySorted timestamp_le l /\
       StronglySorted timestamp_then_id l /\
       (forall rows',
          Permutation rows' rows ->
          StronglySorted row_timestamp_then_id rows' ->
          rows' = rows) /\
       (forall (between : list (call * Env)) (env' : Env),
          Forall (fun ce => is_read (fst ce) = true) between ->
          no_io_error env' ->
          get_messages json_loads rowid_order conversation_id env'
              (run_calls json_dumps json_loads scan_conversations
                 rowid_order between db)
            = (Return l, db)))
  /\
  (forall conversation_id
          role1 content1 metadata1 env1 role2 content2 metadata2 env2
          env db m1 db1 m2 db2,
     filter (in_conversation conversation_id) (messages db) = [] ->
     add_message json_dumps conversation_id role1 content1 metadata1 env1 db
       = (Return m1, db1) ->
     add_message json_dumps conversation_id role2 content2 metadata2 env2 db1
       = (Return m2, db2) ->
     (CURRENT_TIMESTAMP env1 1 <=? CURRENT_TIMESTAMP env2 1)%string = true ->
     loads_or_empty json_loads
         (Some (json_dumps (JObj (or_empty metadata1))))
       = Return (JObj (or_empty metadata1)) ->
     loads_or_empty json_loads
         (Some (json_dumps (JObj (or_empty metadata2))))
       = Return (JObj (or_empty metadata2)) ->
     no_io_error env ->
     get_messages json_loads rowid_order conversation_id env db2
       = (Return
            [{| md_id := md_id m1; md_conversation_id := conversation_id;
                md_role := role1; md_content := content1;
                md_timestamp := CURRENT_TIMESTAMP env1 1;
                md_metadata := JObj (or_empty metadata1) |};
             {| md_id := md_id m2; md_conversation_id := conversation_id;
                md_role := role2; md_content := content2;
                md_timestamp := CURRENT_TIMESTAMP env2 1;
                md_metadata := JObj (or_empty metadata2) |}],
          db2)).
Proof.
  split.
  - intros cs conversation_id env db [_ Hdec] Hio.
    assert (Hord : rowid_ordered db).
    { apply run_calls_rowid_ordered. constructor. }
    assert (Hscan : forall rows : list message_row,
              Permutation (rowid_order rows) rows)
      by (intros rows; apply Permutation_refl).
    destruct (select_messages_rows rowid_order conversation_id db Hscan)
      as [Hperm Hbytime].
    assert (Hmine : StronglySorted (fun x y => m_id x < m_id y)
                      (filter (in_conversation conversation_id)
                              (messages db)))
      by (apply rowid_order_kept_by_where, Hord).
    assert (Hsorted : StronglySorted row_timestamp_then_id
                        (select_messages rowid_order conversation_id db))
      by (apply order_by_timestamp_then_id, Hmine).
    set (rows := select_messages rowid_order conversation_id db) in *.
    destruct (traverse_total (message_dict json_loads) rows) as [l Hl].
    { apply Forall_forall. intros r Hr.
      apply (Permutation_in _ Hperm), filter_In in Hr.
      rewrite Forall_forall in Hdec.
      destruct (Hdec r (proj1 Hr)) as [doc Hdoc].
      unfold message_dict. rewrite Hdoc. eexists. reflexivity. }
    assert (Hrun : forall env', no_io_error env' ->
              get_messages json_loads rowid_order conversation_id env' db
                = (Return l, db)).
    { intros env' Hio'. rewrite get_messages_run, !Hio'.
      fold rows. rewrite Hl. reflexivity. }
    assert (Hreads : Forall2 (reads_as json_loads) rows l).
    { apply traverse_Forall2 in Hl. eapply Forall2_impl; [|exact Hl].
      intros r d. apply message_dict_reads_as. }
    exists rows, l.
    split; [exact (Hrun env Hio)|]. split; [exact Hperm|].
    split; [exact Hreads|]. split; [|split; [|split]].
    + apply (StronglySorted_Forall2 message_row_le timestamp_le
               (reads_as json_loads)) with (l := rows);
        [|exact Hreads|exact Hbytime].
      intros a b a' b' (_ & _ & _ & _ & Ha & _) (_ & _ & _ & _ & Hb & _).
      unfold message_row_le, timestamp_asc, timestamp_le.
      rewrite Ha, Hb. tauto.
    + apply (StronglySorted_Forall2 row_timestamp_then_id timestamp_then_id
               (reads_as json_loads)) with (l := rows);
        [|exact Hreads|exact Hsorted].
      intros a b a' b' (Ia & _ & _ & _ & Ha & _) (Ib & _ & _ & _ & Hb & _).
      unfold row_timestamp_then_id, timestamp_then_id.
      rewrite Ia, Ib, Ha, Hb. tauto.
    + apply sorted_rows_unique; [|exact Hsorted].
      intros a b Ha Hb.
      apply (same_id_same_row _ a b Hmine);
        apply (Permutation_in _ Hperm); assumption.
    + intros between env' Hreadonly Hio'.
      rewrite (run_calls_reads _ _ _ _ between db Hreadonly).
      exact (Hrun env' Hio').
  - intros conversation_id
      role1 content1 metadata1 env1 role2 content2 metadata2 env2
      env db m1 db1 m2 db2 Hnone H1 H2 Hnotback Hdoc1 Hdoc2 Hio.
    rewrite add_message_run in H1. cbv zeta in H1.
    destruct (io_error env1 0); [discriminate|].
    destruct (io_error env1 1); [discriminate|].
    destruct (MAX_ROWID <=? _); [discriminate|].
    destruct (io_error env1 2); [discriminate|].
    destruct (io_error env1 3); [discriminate|].
    injection H1 as <- <-.
    rewrite add_message_run in H2. cbv zeta in H2.
    destruct (io_error env2 0); [discriminate|].
    destruct (io_error env2 1); [discriminate|].
    destruct (MAX_ROWID <=? _); [discriminate|].
    destruct (io_error env2 2); [discriminate|].
    destruct (io_error env2 3); [discriminate|].
    injection H2 as <- <-.
    rewrite get_messages_run, !Hio. unfold select_messages, rowid_order.
    cbn [messages md_id].
    rewrite !filter_app, Hnone.
    assert (Hmine : forall r, m_conversation_id r = conversation_id ->
                      filter (in_conversation conversation_id) [r] = [r]).
    { intros r Hr. simpl. unfold in_conversation. rewrite Hr.
      rewrite String.eqb_refl. reflexivity. }
    rewrite !Hmine by reflexivity.
    cbn [app order_by insert_by].
    unfold timestamp_asc at 1. cbn [m_timestamp]. rewrite Hnotback.
    cbn [traverse]. unfold message_dict. cbn [m_metadata].
    rewrite Hdoc1, Hdoc2. reflexivity.
Qed.

(** C2 on the store holding "c1" and the two messages added to it within
    the second 10:00:05: they come back sorted, id 1 before id 2, which is
    also the order of the two calls. *)
Lemma get_messages_by_timestamp_then_id_sample :
  let env := calm "2026-11-03 10:00:09" "2026-11-03T11:00:09.000100" in
  let first := calm "2026-11-03 10:00:05" "2026-11-03T11:00:05.500000" in
  let second := calm "2026-11-03 10:00:05" "2026-11-03T11:00:05.750000" in
  let db := run_calls Json.dumps Json.loads rowid_order rowid_order
              [(CreateConversation "c1" "Plans" (Some sample_metadata),
                calm "2026-11-03 10:00:00" "2026-11-03T11:00:00.250000");
               (AddMessage "c1" "human" "hi" None, first);
               (AddMessage "c1" "ai" "hello" None, second)]
              (_init_db None) in
  db = two_messages /\
  (exists rows l,
     get_messages Json.loads rowid_order "c1" env db = (Return l, db) /\
     Permutation rows (filter (in_conversation "c1") (messages db)) /\
     Forall2 (reads_as Json.loads) rows l /\
     StronglySorted timestamp_then_id l) /\
  (exists m1 db1 m2 db2 d1 d2,
     add_message Json.dumps "c1" "human" "hi" None first one_conversation
       = (Return m1, db1) /\
     add_message Json.dumps "c1" "ai" "hello" None second db1
       = (Return m2, db2) /\
     get_messages Json.loads rowid_order "c1" env db2
       = (Return [d1; d2], db2) /\
     md_id d1 = 1 /\ md_content d1 = "hi" /\
     md_id d2 = 2 /\ md_content d2 = "hello").
Proof.
  cbv zeta.
  destruct (get_messages_by_timestamp_then_id Json.dumps Json.loads
              rowid_order) as [Hall Htwo].
  split; [reflexivity|]. split.
  - destruct (Hall
                [(CreateConversation "c1" "Plans" (Some sample_metadata),
                  calm "2026-11-03 10:00:00" "2026-11-03T11:00:00.250000");
                 (AddMessage "c1" "human" "hi" None,
                  calm "2026-11-03 10:00:05" "2026-11-03T11:00:05.500000");
                 (AddMessage "c1" "ai" "hello" None,
                  calm "2026-11-03 10:00:05" "2026-11-03T11:00:05.750000")]
                "c1"
                (calm "2026-11-03 10:00:09" "2026-11-03T11:00:09.000100"))
      as (rows & l & Hrun & Hperm & Hreads & _ & Hsorted & _).
    + split; repeat constructor; eexists; vm_compute; reflexivity.
    + intros k. reflexivity.
    + exists rows, l. repeat split; assumption.
  - eexists _, _, _, _, _, _.
    split; [vm_compute; reflexivity|].
    split; [vm_compute; reflexivity|].
    split.
    + eapply (Htwo "c1" "human" "hi" None
                (calm "2026-11-03 10:00:05" "2026-11-03T11:00:05.500000")
                "ai" "hello" None
                (calm "2026-11-03 10:00:05" "2026-11-03T11:00:05.750000")
                (calm "2026-11-03 10:00:09" "2026-11-03T11:00:09.000100")
                one_conversation).
      * reflexivity.
      * vm_compute. reflexivity.
      * vm_compute. reflexivity.
      * vm_compute. reflexivity.
      * vm_compute. reflexivity.
      * vm_compute. reflexivity.
      * intros k. reflexivity.
    + repeat split; reflexivity.
Defined.

(** C2 as stated fails in its last part: the rows are sorted by the
    timestamp the engine's clock gave them, not by the order of the calls.
    When the clock is set back between two [add_message] calls (here from
    10:00:05 to 10:00:03), the message added second (id 2) is returned
    before the one added first (id 1). *)
Lemma get_messages_after_clock_set_back :
  exists m1 db1 m2 db2 d2 d1,
    add_message Json.dumps "c1" "human" "hi" None
        (calm "2026-11-03 10:00:05" "2026-11-03T11:00:05.500000")
        one_conversation
      = (Return m1, db1) /\
    add_message Json.dumps "c1" "ai" "hello" None
        (calm "2026-11-03 10:00:03" "2026-11-03T11:00:03.500000") db1
      = (Return m2, db2) /\
    get_messages Json.loads rowid_order "c1"
        (calm "2026-11-03 10:00:09" "2026-11-03T11:00:09.000100") db2
      = (Return [d2; d1], db2) /\
    md_id m1 = 1 /\ md_id m2 = 2 /\
    md_id d2 = 2 /\ md_content d2 = "hello" /\
    md_timestamp d2 = "2026-11-03 10:00:03" /\
    md_id d1 = 1 /\ md_content d1 = "hi" /\
    md_timestamp d1 = "2026-11-03 10:00:05".
Proof.
  eexists _, _, _, _, _, _.
  split; [vm_compute; reflexivity|].
  split; [vm_compute; reflexivity|].
  split; [vm_compute; reflexivity|].
  repeat split; reflexivity.
Qed.

(** ** Ids that name no conversation *)

(** C8, as the code has it.  For an id that names no Conversation row, on
    a working engine: [get_conversation] returns [None];
    [update_conversation_title] returns [False] and [delete_conversation]
    returns [False], both leaving the file as it was; [get_messages]
    returns the empty list when no Message row carries the id, and on a
    store whose metadata texts decode it returns in every case a list,
    never [None]: the Message rows stored under the id, each once, as
    dicts.  None of the four raises. *)
Theorem missing_id_is_a_normal_return
    (json_loads : string -> option json)
    (scan_messages : list message_row -> list message_row)
    (conversation_id title : string) (env : Env) (db : Database) :
  (forall rows, Permutation (scan_messages rows) rows) ->
  ~ In conversation_id (map c_id (conversations db)) ->
  no_io_error env ->
  get_conversation json_loads conversation_id env db = (Return None, db) /\
  update_conversation_title conversation_id title env db
    = (Return false, db) /\
  delete_conversation conversation_id env db = (Return false, db) /\
  (filter (in_conversation conversation_id) (messages db) = [] ->
   get_messages json_loads scan_messages conversation_id env db
     = (Return [], db)) /\
  (decodable json_loads db ->
   exists rows l,
     get_messages json_loads scan_messages conversation_id env db
       = (Return l, db) /\
     Permutation rows
       (filter (in_conversation conversation_id) (messages db)) /\
     Forall2 (reads_as json_loads) rows l).
Proof.
  intros Hscan Hno Hio. apply not_existsb_has_id in Hno.
  assert (Hcount : rowcount conversation_id db = 0%nat).
  { unfold rowcount. rewrite (filter_none _ _ Hno). reflexivity. }
  destruct (select_messages_rows scan_messages conversation_id db Hscan)
    as [Hperm _].
  split; [|split; [|split; [|split]]].
  - rewrite get_conversation_run, !Hio. unfold select_conversation.
    destruct (find _ _) as [r|] eqn:Efind; [|reflexivity].
    apply find_some in Efind. destruct Efind as [Hin Hid].
    assert (existsb (has_id conversation_id) (conversations db) = true)
      by (apply existsb_exists; exists r; split; assumption).
    congruence.
  - rewrite update_conversation_title_run, !Hio, Hcount.
    unfold update_where. rewrite (map_untouched _ _ _ Hno), database_eta.
    reflexivity.
  - rewrite delete_conversation_run, !Hio, Hcount.
    rewrite (filter_all _ _ Hno), database_eta. reflexivity.
  - intros Hnone. rewrite get_messages_run, !Hio.
    rewrite Hnone in Hperm.
    apply Permutation_sym, Permutation_nil in Hperm.
    rewrite Hperm. reflexivity.
  - intros [_ Hdec]. rewrite get_messages_run, !Hio.
    set (rows := select_messages scan_messages conversation_id db) in *.
    destruct (traverse_total (message_dict json_loads) rows) as [l Hl].
    { apply Forall_forall. intros r Hr.
      apply (Permutation_in _ Hperm), filter_In in Hr.
      rewrite Forall_forall in Hdec.
      destruct (Hdec r (proj1 Hr)) as [doc Hdoc].
      unfold message_dict. rewrite Hdoc. eexists. reflexivity. }
    rewrite Hl. exists rows, l.
    split; [reflexivity|]. split; [exact Hperm|].
    apply traverse_Forall2 in Hl. eapply Forall2_impl; [|exact Hl].
    intros r d. apply message_dict_reads_as.
Qed.

(** C8 twice: with the id and title of the spec's example on the store
    holding "c1", where nothing is stored under the id; and with "ghost"
    on the store where a message was added under that id without a
    conversation, where [get_messages] returns that message. *)
Lemma missing_id_is_a_normal_return_sample :
  let env := calm "2026-11-03 10:00:09" "2026-11-03T11:00:09.000100" in
  (get_conversation Json.loads "missing-id" env one_conversation
     = (Return None, one_conversation) /\
   update_conversation_title "missing-id" "x" env one_conversation
     = (Return false, one_conversation) /\
   delete_conversation "missing-id" env one_conversation
     = (Return false, one_conversation) /\
   get_messages Json.loads rowid_order "missing-id" env one_conversation
     = (Return [], one_conversation)) /\
  (get_conversation Json.loads "ghost" env ghost_message
     = (Return None, ghost_message) /\
   update_conversation_title "ghost" "x" env ghost_message
     = (Return false, ghost_message) /\
   delete_conversation "ghost" env ghost_message
     = (Return false, ghost_message) /\
   exists rows l,
     get_messages Json.loads rowid_order "ghost" env ghost_message
       = (Return l, ghost_message) /\
     Permutation rows
       (filter (in_conversation "ghost") (messages ghost_message)) /\
     Forall2 (reads_as Json.loads) rows l /\
     length l = 1%nat).
Proof.
  cbv zeta. split.
  - destruct (missing_id_is_a_normal_return Json.loads rowid_order
                "missing-id" "x"
                (calm "2026-11-03 10:00:09" "2026-11-03T11:00:09.000100")
                one_conversation) as (H1 & H2 & H3 & H4 & _).
    + intros rows. apply Permutation_refl.
    + vm_compute. intros [H|[]]. discriminate H.
    + intros k. reflexivity.
    + split; [exact H1|]. split; [exact H2|]. split; [exact H3|].
      apply H4. reflexivity.
  - destruct (missing_id_is_a_normal_return Json.loads rowid_order
                "ghost" "x"
                (calm "2026-11-03 10:00:09" "2026-11-03T11:00:09.000100")
                ghost_message) as (H1 & H2 & H3 & _ & H5).
    + intros rows. apply Permutation_refl.
    + vm_compute. intros [].
    + intros k. reflexivity.
    + split; [exact H1|]. split; [exact H2|]. split; [exact H3|].
      destruct H5 as (rows & l & Hrun & Hperm & Hreads).
      * split; repeat constructor; eexists; vm_compute; reflexivity.
      * exists rows, l. split; [exact Hrun|]. split; [exact Hperm|].
        split; [exact Hreads|].
        rewrite <- (Forall2_length_eq _ _ _ Hreads).
        apply (Permutation_length Hperm).
Defined.

(** C8 as stated fails: [add_message] does not look for the conversation,
    so a message can be stored under an id that names none, and
    [get_messages] of that id returns it. *)
Lemma get_messages_of_missing_conversation :
  empty_db = _init_db None /\
  ~ In "ghost" (map c_id (conversations ghost_message)) /\
  get_messages Json.loads rowid_order "ghost"
      (calm "2026-11-03 10:00:09" "2026-11-03T11:00:09.000100")
      ghost_message
    = (Return [{| md_id := 1; md_conversation_id := "ghost";
                  md_role := "human"; md_content := "anyone?";
                  md_timestamp := "2026-11-03 10:00:00";
                  md_metadata := JObj [] |}],
       ghost_message).
Proof.
  split; [reflexivity|]. split.
  - vm_compute. intros [].
  - vm_compute. reflexivity.
Qed.

(** * Further properties of the store *)

(** ** What a call leaves of the file *)

(** X1. The three reading methods never write: whatever they return or
    raise, and whatever the engine does during the call, the file after
    [get_conversation], [get_all_conversations] or [get_messages] is the
    file before it. *)
Theorem reads_never_write
    (json_loads : string -> option json)
    (scan_conversations : list conversation_row -> list conversation_row)
    (scan_messages : list message_row -> list message_row)
    (conversation_id : string) (limit : Z) (env : Env) (db : Database) :
  snd (get_conversation json_loads conversation_id env db) = db /\
  snd (get_all_conversations json_loads scan_conversations limit env db)
    = db /\
  snd (get_messages json_loads scan_messages conversation_id env db) = db.
Proof.
  rewrite get_conversation_run, get_all_conversations_run, get_messages_run.
  repeat split; by_cases; reflexivity.
Qed.

(** X2. A method that raises has written nothing: for each of the seven
    methods, when the call ends in an exception (a failed connect, a failed
    statement, a constraint, a failed commit, undecodable metadata, a limit
    out of range), the file is as it was before the call. *)
Theorem a_raise_changes_nothing
    (json_dumps : json -> string) (json_loads : string -> option json)
    (scan_conversations : list conversation_row -> list conversation_row)
    (scan_messages : list message_row -> list message_row)
    (conversation_id title role content : string) (metadata : option Dict)
    (limit : Z) (env : Env) (db db' : Database) (e : exn) :
  (create_conversation json_dumps conversation_id title metadata env db
     = (Raise e, db') -> db' = db) /\
  (get_conversation json_loads conversation_id env db
     = (Raise e, db') -> db' = db) /\
  (get_all_conversations json_loads scan_conversations limit env db
     = (Raise e, db') -> db' = db) /\
  (add_message json_dumps conversation_id role content metadata env db
     = (Raise e, db') -> db' = db) /\
  (get_messages json_loads scan_messages conversation_id env db
     = (Raise e, db') -> db' = db) /\
  (delete_conversation conversation_id env db
     = (Raise e, db') -> db' = db) /\
  (update_conversation_title conversation_id title env db
     = (Raise e, db') -> db' = db).
Proof.
  rewrite create_conversation_run, get_conversation_run,
    get_all_conversations_run, add_message_run, get_messages_run,
    delete_conversation_run, update_conversation_title_run.
  cbv zeta.
  repeat split; by_cases; intros H; try discriminate H;
    injection H as _ <-; reflexivity.
Qed.

(** ** Conversation ids *)

Lemma map_c_id_updated (conversation_id : string)
    (f : conversation_row -> conversation_row)
    (rows : list conversation_row) :
  (forall r, c_id (f r) = c_id r) ->
  map c_id (map (fun r => if has_id conversation_id r then f r else r) rows)
    = map c_id rows.
Proof.
  intros Hf. rewrite map_map. apply map_ext. intros r.
  destruct (has_id conversation_id r); [apply Hf|reflexivity].
Qed.

Lemma ids_unique_after_delete (conversation_id : string)
    (rows : list conversation_row) :
  NoDup (map c_id rows) ->
  NoDup (map c_id
           (filter (fun r => negb (has_id conversation_id r)) rows)).
Proof.
  induction rows as [|r rows IH]; simpl; intros Hrows; [constructor|].
  inversion Hrows as [|? ? Hfresh Hrest]; subst.
  destruct (has_id conversation_id r); simpl; [apply IH, Hrest|].
  constructor; [|apply IH, Hrest].
  intros Hin. apply Hfresh.
  apply in_map_iff in Hin. destruct Hin as [kept [Hid Hkept]].
  apply filter_In in Hkept. apply in_map_iff. exists kept. tauto.
Qed.

Lemma run_call_conversation_ids_unique
    (json_dumps : json -> string) (json_loads : string -> option json)
    (scan_conversations : list conversation_row -> list conversation_row)
    (scan_messages : list message_row -> list message_row)
    (c : call) (env : Env) (db : Database) :
  NoDup (map c_id (conversations db)) ->
  NoDup (map c_id (conversations
           (run_call json_dumps json_loads scan_conversations scan_messages
              c env db))).
Proof.
  intros Hdb.
  destruct c; simpl;
    rewrite ?create_conversation_run, ?get_conversation_run,
      ?get_all_conversations_run, ?add_message_run, ?get_messages_run,
      ?delete_conversation_run, ?update_conversation_title_run;
    cbv zeta.
  - destruct (io_error env 0); [assumption|].
    destruct (io_error env 1); [assumption|].
    destruct (existsb _ _) eqn:Hfresh; [assumption|].
    destruct (io_error env 2); [assumption|]. simpl.
    rewrite map_app. simpl. apply NoDup_snoc; [assumption|].
    intros Hin. apply existsb_has_id in Hin. congruence.
  - by_cases; assumption.
  - by_cases; assumption.
  - by_cases; try assumption.
    rewrite map_c_id_updated; [assumption|reflexivity].
  - by_cases; assumption.
  - by_cases; try assumption. apply ids_unique_after_delete. assumption.
  - by_cases; try assumption. unfold update_where. simpl.
    rewrite map_c_id_updated; [assumption|reflexivity].
Qed.

(** X3. Conversation ids stay unique: after any sequence of calls on a
    fresh store, whatever each returned or raised, no two Conversation
    rows share an id. *)
Theorem conversation_ids_stay_unique
    (json_dumps : json -> string) (json_loads : string -> option json)
    (scan_conversations : list conversation_row -> list conversation_row)
    (scan_messages : list message_row -> list message_row)
    (cs : list (call * Env)) :
  NoDup (map c_id (conversations
           (run_calls json_dumps json_loads scan_conversations scan_messages
              cs (_init_db None)))).
Proof.
  assert (H : forall db, NoDup (map c_id (conversations db)) ->
            NoDup (map c_id (conversations
                     (run_calls json_dumps json_loads scan_conversations
                        scan_messages cs db)))).
  { induction cs as [|[c env] cs IH]; simpl; intros db Hdb; [assumption|].
    apply IH, run_call_conversation_ids_unique, Hdb. }
  apply H. constructor.
Qed.

(** ** Deleting, renaming, and undoing a creation *)

Lemma rowcount_positive (conversation_id : string) (db : Database) :
  (0 <? rowcount conversation_id db)%nat
    = existsb (has_id conversation_id) (conversations db).
Proof.
  unfold rowcount. induction (conversations db) as [|r l IH]; simpl;
    [reflexivity|].
  destruct (has_id conversation_id r); simpl; [reflexivity|exact IH].
Qed.

Lemma existsb_after_delete (conversation_id : string)
    (rows : list conversation_row) :
  existsb (has_id conversation_id)
    (filter (fun r => negb (has_id conversation_id r)) rows) = false.
Proof.
  induction rows as [|r l IH]; simpl; [reflexivity|].
  destruct (has_id conversation_id r) eqn:E; simpl; [exact IH|].
  rewrite E. exact IH.
Qed.

Lemma find_updated (conversation_id : string)
    (f : conversation_row -> conversation_row)
    (rows : list conversation_row) :
  (forall r, c_id (f r) = c_id r) ->
  find (has_id conversation_id)
    (map (fun r => if has_id conversation_id r then f r else r) rows)
    = option_map f (find (has_id conversation_id) rows).
Proof.
  intros Hf. induction rows as [|r l IH]; simpl; [reflexivity|].
  destruct (has_id conversation_id r) eqn:E.
  - unfold has_id in *. rewrite Hf, E. reflexivity.
  - rewrite E. exact IH.
Qed.

(** X4. On a working engine, [delete_conversation(id)] returns whether a
    Conversation row had the id; afterwards no row has it and the rows under
    other ids are all still there, [get_conversation(id)] returns [None],
    and a second [delete_conversation(id)] returns [False]. *)
Theorem delete_conversation_then_gone
    (json_loads : string -> option json)
    (conversation_id : string) (env env' : Env) (db : Database) :
  no_io_error env ->
  no_io_error env' ->
  exists db',
    delete_conversation conversation_id env db
      = (Return (existsb (has_id conversation_id) (conversations db)), db') /\
    ~ In conversation_id (map c_id (conversations db')) /\
    (forall r, In r (conversations db') <->
               In r (conversations db) /\ c_id r <> conversation_id) /\
    get_conversation json_loads conversation_id env' db'
      = (Return None, db') /\
    delete_conversation conversation_id env' db' = (Return false, db').
Proof.
  intros Hio Hio'.
  rewrite delete_conversation_run, !Hio, rowcount_positive.
  eexists. split; [reflexivity|].
  pose proof (existsb_after_delete conversation_id (conversations db))
    as Hgone.
  split; [|split; [|split]].
  - simpl. intros Hin. apply existsb_has_id in Hin. congruence.
  - intros r. simpl. rewrite filter_In, negb_true_iff, has_id_false.
    reflexivity.
  - rewrite get_conversation_run, !Hio'. unfold select_conversation. simpl.
    destruct (find _ _) as [r|] eqn:Efind; [|reflexivity].
    apply find_some in Efind.
    assert (existsb (has_id conversation_id)
              (filter (fun r => negb (has_id conversation_id r))
                 (conversations db)) = true)
      by (apply existsb_exists; exists r; exact Efind).
    congruence.
  - rewrite delete_conversation_run, !Hio', rowcount_positive. simpl.
    rewrite Hgone, (filter_all _ _ Hgone). reflexivity.
Qed.

(** X4 on the store holding "c1" and its two messages. *)
Lemma delete_conversation_then_gone_sample :
  let env := calm "2026-11-03 10:00:09" "2026-11-03T11:00:09.000100" in
  exists db',
    delete_conversation "c1" env two_messages = (Return true, db') /\
    ~ In "c1" (map c_id (conversations db')) /\
    get_conversation Json.loads "c1" env db' = (Return None, db') /\
    delete_conversation "c1" env db' = (Return false, db').
Proof.
  cbv zeta.
  destruct (delete_conversation_then_gone Json.loads "c1"
              (calm "2026-11-03 10:00:09" "2026-11-03T11:00:09.000100")
              (calm "2026-11-03 10:00:09" "2026-11-03T11:00:09.000100")
              two_messages)
    as (db' & Hrun & Hgone & _ & Hget & Hagain).
  - intros k. reflexivity.
  - intros k. reflexivity.
  - exists db'. split; [exact Hrun|]. split; [exact Hgone|].
    split; [exact Hget|exact Hagain].
Defined.

(** X5. Renaming shows in the next read: when [get_conversation(id)]
    returns a record, then on a working engine
    [update_conversation_title(id, t)] returns [True], and the next
    [get_conversation(id)] returns the same record with title [t] and with
    the [CURRENT_TIMESTAMP] of the UPDATE as [updated_at]. *)
Theorem update_title_then_get
    (json_loads : string -> option json)
    (conversation_id title : string) (env0 env env' : Env) (db : Database)
    (c : ConversationDict) :
  get_conversation json_loads conversation_id env0 db
    = (Return (Some c), db) ->
  no_io_error env ->
  no_io_error env' ->
  exists db',
    update_conversation_title conversation_id title env db
      = (Return true, db') /\
    get_conversation json_loads conversation_id env' db'
      = (Return
           (Some {| cd_id := cd_id c; cd_title := title;
                    cd_created_at := cd_created_at c;
                    cd_updated_at := CURRENT_TIMESTAMP env 1;
                    cd_metadata := cd_metadata c |}),
         db').
Proof.
  intros Hget Hio Hio'.
  rewrite get_conversation_run in Hget.
  destruct (io_error env0 0); [discriminate|].
  destruct (io_error env0 1); [discriminate|].
  unfold select_conversation in Hget.
  destruct (find (has_id conversation_id) (conversations db)) as [r|]
    eqn:Efind; [|discriminate].
  unfold conversation_dict in Hget.
  destruct (loads_or_empty json_loads (c_metadata r)) as [doc|]
    eqn:Edoc; [|discriminate].
  injection Hget as <-.
  pose proof (find_some _ _ Efind) as [Hin Hid].
  rewrite update_conversation_title_run, !Hio, rowcount_positive.
  assert (Hex : existsb (has_id conversation_id) (conversations db) = true)
    by (apply existsb_exists; exists r; split; assumption).
  rewrite Hex. eexists. split; [reflexivity|].
  rewrite get_conversation_run, !Hio'.
  unfold select_conversation, update_where. simpl.
  rewrite find_updated by reflexivity. rewrite Efind. simpl.
  unfold conversation_dict. simpl. rewrite Edoc. reflexivity.
Qed.

(** X5 on the store holding "c1". *)
Lemma update_title_then_get_sample :
  let env := calm "2026-11-03 10:00:09" "2026-11-03T11:00:09.000100" in
  exists db',
    update_conversation_title "c1" "Renamed" env one_conversation
      = (Return true, db') /\
    get_conversation Json.loads "c1" env db'
      = (Return
           (Some {| cd_id := "c1"; cd_title := "Renamed";
                    cd_created_at := "2026-11-03 10:00:00";
                    cd_updated_at := "2026-11-03 10:00:09";
                    cd_metadata := JObj sample_metadata |}),
         db').
Proof.
  cbv zeta.
  apply (update_title_then_get Json.loads "c1" "Renamed"
           (calm "2026-11-03 10:00:09" "2026-11-03T11:00:09.000100")
           (calm "2026-11-03 10:00:09" "2026-11-03T11:00:09.000100")
           (calm "2026-11-03 10:00:09" "2026-11-03T11:00:09.000100")
           one_conversation
           {| cd_id := "c1"; cd_title := "Plans";
              cd_created_at := "2026-11-03 10:00:00";
              cd_updated_at := "2026-11-03 10:00:00";
              cd_metadata := JObj sample_metadata |}).
  - vm_compute. reflexivity.
  - intros k. reflexivity.
  - intros k. reflexivity.
Defined.

(** X6. Deleting undoes creating: when [create_conversation(id, ...)]
    returns, a [delete_conversation(id)] that follows on a working engine
    returns [True] and leaves exactly the file from before the creation. *)
Theorem create_then_delete_restores
    (json_dumps : json -> string)
    (conversation_id title : string) (metadata : option Dict)
    (env env' : Env) (db db1 : Database) (r : ConversationDict) :
  create_conversation json_dumps conversation_id title metadata env db
    = (Return r, db1) ->
  no_io_error env' ->
  delete_conversation conversation_id env' db1 = (Return true, db).
Proof.
  intros Hcreate Hio.
  rewrite create_conversation_run in Hcreate.
  destruct (io_error env 0); [discriminate|].
  destruct (io_error env 1); [discriminate|].
  destruct (existsb (has_id conversation_id) (conversations db)) eqn:Hfresh;
    [discriminate|].
  destruct (io_error env 2); [discriminate|].
  injection Hcreate as _ <-.
  rewrite delete_conversation_run, !Hio, rowcount_positive. simpl.
  rewrite existsb_app, filter_app, Hfresh, (filter_all _ _ Hfresh). simpl.
  assert (Hid : forall t n md,
            has_id conversation_id
              {| c_id := conversation_id; c_title := t; c_created_at := n;
                 c_updated_at := n; c_metadata := md |} = true)
    by (intros; apply has_id_true; reflexivity).
  rewrite Hid. simpl. rewrite app_nil_r, database_eta. reflexivity.
Qed.

(** X6 on a fresh store. *)
Lemma create_then_delete_restores_sample :
  delete_conversation "c1"
      (calm "2026-11-03 10:00:09" "2026-11-03T11:00:09.000100")
      one_conversation
    = (Return true, empty_db).
Proof.
  apply (create_then_delete_restores Json.dumps "c1" "Plans"
           (Some sample_metadata)
           (calm "2026-11-03 10:00:00" "2026-11-03T11:00:00.250000")
           (calm "2026-11-03 10:00:09" "2026-11-03T11:00:09.000100")
           empty_db one_conversation
           {| cd_id := "c1"; cd_title := "Plans";
              cd_created_at := "2026-11-03T11:00:00.250000";
              cd_updated_at := "2026-11-03T11:00:00.250000";
              cd_metadata := JObj sample_metadata |}).
  - vm_compute. reflexivity.
  - intros k. reflexivity.
Defined.

(** ** What adding a message leaves alone *)

(** X7. When [add_message(id, ...)] returns, the Conversation rows are the
    same rows in the same order with only [updated_at] of the rows under
    [id] changed, every Message row stored before is still there unchanged
    and in place, and the message count the list query computes has gone up
    by one for the rows under [id] and is unchanged for every other row. *)
Theorem add_message_frame
    (json_dumps : json -> string)
    (conversation_id role content : string) (metadata : option Dict)
    (env : Env) (db db' : Database) (m : MessageDict) :
  add_message json_dumps conversation_id role content metadata env db
    = (Return m, db') ->
  Forall2 (touched conversation_id) (conversations db) (conversations db') /\
  firstn (length (messages db)) (messages db') = messages db /\
  length (messages db') = S (length (messages db)) /\
  (forall r, message_count db' r
             = message_count db r
               + (if has_id conversation_id r then 1 else 0)).
Proof.
  rewrite add_message_run. cbv zeta.
  destruct (io_error env 0); [discriminate|].
  destruct (io_error env 1); [discriminate|].
  destruct (MAX_ROWID <=? _); [discriminate|].
  destruct (io_error env 2); [discriminate|].
  destruct (io_error env 3); [discriminate|].
  intros H. injection H as _ <-. simpl.
  split; [|split; [|split]].
  - apply Forall2_map_same. intros r.
    destruct (has_id conversation_id r) eqn:Eid; repeat split;
      try reflexivity.
    apply has_id_true in Eid. intros Hother. contradiction.
  - rewrite firstn_app, Nat.sub_diag, firstn_all. simpl. apply app_nil_r.
  - rewrite length_app. simpl. lia.
  - intros r. unfold message_count. cbn [messages].
    rewrite filter_app, length_app.
    match goal with
    | |- context [filter (in_conversation (c_id r)) [?row]] =>
        change (filter (in_conversation (c_id r)) [row])
          with (if in_conversation (c_id r) row then [row] else [])
    end.
    unfold in_conversation at 2, has_id. cbn [m_conversation_id].
    rewrite (String.eqb_sym conversation_id (c_id r)).
    destruct (c_id r =? conversation_id)%string; simpl; lia.
Qed.

(** X7 on the first message of "c1". *)
Lemma add_message_frame_sample :
  exists m db',
    add_message Json.dumps "c1" "human" "hi" None
        (calm "2026-11-03 10:00:05" "2026-11-03T11:00:05.500000")
        one_conversation
      = (Return m, db') /\
    Forall2 (touched "c1") (conversations one_conversation)
            (conversations db') /\
    length (messages db') = S (length (messages one_conversation)).
Proof.
  eexists _, _. split; [vm_compute; reflexivity|].
  destruct (add_message_frame Json.dumps "c1" "human" "hi" None
              (calm "2026-11-03 10:00:05" "2026-11-03T11:00:05.500000")
              one_conversation _ _ eq_refl)
    as (Hrows & _ & Hlen & _).
  split; [exact Hrows|exact Hlen].
Defined.

(** ** Metadata that was never stored, and metadata that does not decode *)

Lemma loads_or_empty_raises (json_loads : string -> option json)
    (text : option string) (e : exn) :
  loads_or_empty json_loads text = Raise e -> e = JSONDecodeError.
Proof.
  unfold loads_or_empty. destruct text as [[|ch s]|]; try discriminate.
  destruct (json_loads (String ch s)); [discriminate|].
  intros H. injection H as <-. reflexivity.
Qed.

Lemma traverse_raise {A B : Type} (f : A -> outcome B) (e0 : exn)
    (l : list A) (x : A) :
  (forall y e, In y l -> f y = Raise e -> e = e0) ->
  In x l -> f x = Raise e0 ->
  traverse f l = Raise e0.
Proof.
  induction l as [|y l IH]; simpl; intros Honly Hin Hx; [destruct Hin|].
  destruct (f y) as [b|e] eqn:Ey.
  - destruct Hin as [-> | Hin]; [congruence|].
    rewrite (IH (fun z e H => Honly z e (or_intror H)) Hin Hx).
    reflexivity.
  - f_equal. apply (Honly y e); [left; reflexivity|exact Ey].
Qed.

(** X8. Reading the messages of a conversation, on a working engine: when
    none of its rows has metadata text (NULL or the empty text), every
    returned record has the empty document as metadata, without
    [json.loads] being asked; when one of its rows has a non-empty metadata
    text that [json.loads] rejects, the whole call raises
    [JSONDecodeError] and returns no message at all. *)
Theorem get_messages_metadata_edges
    (json_loads : string -> option json)
    (scan_messages : list message_row -> list message_row)
    (conversation_id : string) (env : Env) (db : Database) :
  (forall rows, Permutation (scan_messages rows) rows) ->
  no_io_error env ->
  ((forall r, In r (messages db) -> m_conversation_id r = conversation_id ->
      m_metadata r = None \/ m_metadata r = Some "") ->
   exists l,
     get_messages json_loads scan_messages conversation_id env db
       = (Return l, db) /\
     length l
       = length (filter (in_conversation conversation_id) (messages db)) /\
     Forall (fun d => md_metadata d = JObj []) l)
  /\
  (forall r ch text,
     In r (messages db) -> m_conversation_id r = conversation_id ->
     m_metadata r = Some (String ch text) ->
     json_loads (String ch text) = None ->
     get_messages json_loads scan_messages conversation_id env db
       = (Raise JSONDecodeError, db)).
Proof.
  intros Hscan Hio.
  destruct (select_messages_rows scan_messages conversation_id db Hscan)
    as [Hperm _].
  assert (Hmine : forall r, In r (messages db) ->
            m_conversation_id r = conversation_id ->
            In r (select_messages scan_messages conversation_id db)).
  { intros r Hin Hid. apply (Permutation_in _ (Permutation_sym Hperm)).
    apply filter_In. split; [exact Hin|].
    unfold in_conversation. apply String.eqb_eq. exact Hid. }
  assert (Htheirs : forall r,
            In r (select_messages scan_messages conversation_id db) ->
            In r (messages db) /\ m_conversation_id r = conversation_id).
  { intros r Hin. apply (Permutation_in _ Hperm), filter_In in Hin.
    destruct Hin as [Hin Hid]. split; [exact Hin|].
    unfold in_conversation in Hid. apply String.eqb_eq. exact Hid. }
  split.
  - intros Hbare. rewrite get_messages_run, !Hio.
    set (rows := select_messages scan_messages conversation_id db) in *.
    assert (Hdict : forall r, In r rows ->
              message_dict json_loads r
                = Return {| md_id := m_id r;
                            md_conversation_id := m_conversation_id r;
                            md_role := m_role r; md_content := m_content r;
                            md_timestamp := m_timestamp r;
                            md_metadata := JObj [] |}).
    { intros r Hr. destruct (Htheirs r Hr) as [Hin Hid].
      unfold message_dict.
      destruct (Hbare r Hin Hid) as [-> | ->]; reflexivity. }
    destruct (traverse_total (message_dict json_loads) rows) as [l Hl].
    { apply Forall_forall. intros r Hr. eexists. apply Hdict, Hr. }
    rewrite Hl. exists l. split; [reflexivity|].
    apply traverse_Forall2 in Hl. split.
    + rewrite <- (Forall2_length_eq _ _ _ Hl).
      apply Permutation_length, Hperm.
    + clear -Hl Hdict. induction Hl as [|r d rows l Hr _ IH]; constructor.
      * rewrite Hdict in Hr by (left; reflexivity).
        injection Hr as <-. reflexivity.
      * apply IH. intros r' Hr'. apply Hdict. right. exact Hr'.
  - intros r ch text Hin Hid Htext Hbad.
    rewrite get_messages_run, !Hio.
    rewrite (traverse_raise (message_dict json_loads) JSONDecodeError _ r).
    + reflexivity.
    + intros y e _. unfold message_dict.
      destruct (loads_or_empty json_loads (m_metadata y)) as [doc|e']
        eqn:Ey; [discriminate|].
      intros H. injection H as <-.
      exact (loads_or_empty_raises _ _ _ Ey).
    + apply Hmine; assumption.
    + unfold message_dict, loads_or_empty. rewrite Htext, Hbad. reflexivity.
Qed.

(** X8 on a store whose only message has the metadata text ["{oops"]. *)
Lemma get_messages_metadata_edges_sample :
  get_messages Json.loads rowid_order "c0"
      (calm "2026-11-03 10:00:09" "2026-11-03T11:00:09.000100")
      bare_conversation
    = (Raise JSONDecodeError, bare_conversation).
Proof.
  refine (proj2 (get_messages_metadata_edges Json.loads rowid_order "c0"
                   (calm "2026-11-03 10:00:09" "2026-11-03T11:00:09.000100")
                   bare_conversation _ _)
            {| m_id := 1; m_conversation_id := "c0"; m_role := "human";
               m_content := "hi"; m_timestamp := "2026-11-02 09:00:01";
               m_metadata := Some "{oops" |}
            "{"%char "oops" _ _ _ _).
  - intros rows. apply Permutation_refl.
  - intros k. reflexivity.
  - left. reflexivity.
  - reflexivity.
  - reflexivity.
  - vm_compute. reflexivity.
Defined.

(** ** Limits of the list query *)

(** X9. [get_all_conversations(limit)] at the edges of [limit], on a
    working engine and a store whose metadata texts decode: a limit that
    does not fit a 64-bit signed integer raises [OverflowError]; a negative
    limit that fits returns every conversation of the store; limit 0
    returns the empty list. *)
Theorem get_all_conversations_limit_edges
    (json_loads : string -> option json)
    (scan_conversations : list conversation_row -> list conversation_row)
    (limit : Z) (env : Env) (db : Database) :
  (forall rows, Permutation (scan_conversations rows) rows) ->
  decodable json_loads db ->
  no_io_error env ->
  (limit < - MAX_ROWID - 1 \/ MAX_ROWID < limit ->
   get_all_conversations json_loads scan_conversations limit env db
     = (Raise OverflowError, db))
  /\
  (- MAX_ROWID - 1 <= limit < 0 ->
   exists rows l,
     get_all_conversations json_loads scan_conversations limit env db
       = (Return l, db) /\
     Permutation rows (conversations db) /\
     Forall2 (summarises json_loads db) rows l)
  /\
  (limit = 0 ->
   get_all_conversations json_loads scan_conversations limit env db
     = (Return [], db)).
Proof.
  intros Hscan [Hdec _] Hio.
  rewrite get_all_conversations_run, !Hio.
  split; [|split].
  - intros Hout.
    assert (Hfits : fits_int64 limit = false).
    { unfold fits_int64. apply andb_false_iff.
      destruct Hout; [left|right]; apply Z.leb_gt; assumption. }
    rewrite Hfits. reflexivity.
  - intros Hneg.
    assert (Hfits : fits_int64 limit = true).
    { unfold fits_int64. apply andb_true_intro.
      split; apply Z.leb_le; unfold MAX_ROWID in *; lia. }
    assert (Hlt : (limit <? 0) = true) by (apply Z.ltb_lt; lia).
    rewrite Hfits. unfold select_all_conversations, apply_limit.
    rewrite Hlt.
    destruct (select_all_conversations_rows scan_conversations db Hscan)
      as (rows & Hrows & Hperm & _).
    rewrite Hrows.
    destruct (traverse_total (summary_dict json_loads)
                (map (fun r => (r, message_count db r)) rows)) as [l Hl].
    { apply Forall_forall. intros p Hp.
      apply in_map_iff in Hp. destruct Hp as [r [<- Hr]].
      rewrite Forall_forall in Hdec.
      destruct (Hdec r (Permutation_in _ Hperm Hr)) as [doc Hdoc].
      unfold summary_dict. simpl. rewrite Hdoc. eexists. reflexivity. }
    rewrite Hl. exists rows, l.
    split; [reflexivity|]. split; [exact Hperm|].
    apply traverse_Forall2, Forall2_map_left in Hl.
    eapply Forall2_impl; [|exact Hl].
    intros r s. apply summary_dict_summarises.
  - intros ->. reflexivity.
Qed.

(** X9 with [limit=-5] on the store of three conversations. *)
Lemma get_all_conversations_limit_edges_sample :
  exists rows l,
    get_all_conversations Json.loads rowid_order (-5)
        (calm "2026-11-03 10:00:09" "2026-11-03T11:00:09.000100")
        three_conversations
      = (Return l, three_conversations) /\
    Permutation rows (conversations three_conversations) /\
    Forall2 (summarises Json.loads three_conversations) rows l.
Proof.
  apply (get_all_conversations_limit_edges Json.loads rowid_order (-5)
           (calm "2026-11-03 10:00:09" "2026-11-03T11:00:09.000100")
           three_conversations).
  - intros rows. apply Permutation_refl.
  - split; repeat constructor; eexists; vm_compute; reflexivity.
  - intros k. reflexivity.
  - unfold MAX_ROWID. lia.
Defined.

(** * The HTTP endpoints *)

Lemma select_conversation_missing (conversation_id : string)
    (db : Database) :
  ~ In conversation_id (map c_id (conversations db)) ->
  select_conversation conversation_id db = None.
Proof.
  intros Hno. apply not_existsb_has_id in Hno.
  unfold select_conversation.
  destruct (find _ _) as [r|] eqn:Efind; [|reflexivity].
  apply find_some in Efind.
  assert (existsb (has_id conversation_id) (conversations db) = true)
    by (apply existsb_exists; exists r; exact Efind).
  congruence.
Qed.

(** X10. Every endpoint that names a conversation answers 404 for an id
    under which no conversation is stored, on a working engine, and writes
    nothing: reading it, adding a message to it, listing its messages (also
    when Message rows are stored under the id), deleting it, renaming
    it. *)
Theorem endpoints_answer_404
    (json_dumps : json -> string) (json_loads : string -> option json)
    (scan_messages : list message_row -> list message_row)
    (conversation_id title : string) (request : App.AddMessageRequest)
    (env env2 : Env) (db : Database) :
  ~ In conversation_id (map c_id (conversations db)) ->
  no_io_error env ->
  App.get_conversation json_loads conversation_id env db
    = (App.not_found, db) /\
  App.add_message_to_conversation json_dumps json_loads conversation_id
      request env env2 db
    = (App.not_found, db) /\
  App.get_conversation_messages json_loads scan_messages conversation_id
      env env2 db
    = (App.not_found, db) /\
  App.delete_conversation conversation_id env db = (App.not_found, db) /\
  App.update_conversation_title conversation_id title env db
    = (App.not_found, db).
Proof.
  intros Hno Hio.
  pose proof (select_conversation_missing _ _ Hno) as Hsel.
  apply not_existsb_has_id in Hno.
  assert (Hget : get_conversation json_loads conversation_id env db
                   = (Return None, db)).
  { rewrite get_conversation_run, !Hio, Hsel. reflexivity. }
  unfold App.get_conversation, App.add_message_to_conversation,
    App.get_conversation_messages, App.delete_conversation,
    App.update_conversation_title, db.get_conversation,
    db.delete_conversation, db.update_conversation_title.
  rewrite Hget, delete_conversation_run, update_conversation_title_run,
    !Hio, rowcount_positive, Hno.
  unfold update_where.
  rewrite (filter_all _ _ Hno), (map_untouched _ _ _ Hno), database_eta.
  repeat split; reflexivity.
Qed.

(** X10 on the store where a message sits under "ghost" without a
    conversation: its messages are not served. *)
Lemma endpoints_answer_404_sample :
  App.get_conversation_messages Json.loads rowid_order "ghost"
      (calm "2026-11-03 10:00:09" "2026-11-03T11:00:09.000100")
      (calm "2026-11-03 10:00:09" "2026-11-03T11:00:09.000100")
      ghost_message
    = (App.not_found, ghost_message).
Proof.
  refine (proj1 (proj2 (proj2
            (endpoints_answer_404 Json.dumps Json.loads rowid_order
               "ghost" "x"
               {| App.role := "human"; App.content := "hi";
                  App.metadata := None |}
               (calm "2026-11-03 10:00:09" "2026-11-03T11:00:09.000100")
               (calm "2026-11-03 10:00:09" "2026-11-03T11:00:09.000100")
               ghost_message _ _)))).
  - vm_compute. intros [].
  - intros k. reflexivity.
Defined.

Lemma existsb_has_id_updated (i conversation_id : string)
    (f : conversation_row -> conversation_row)
    (rows : list conversation_row) :
  (forall r, c_id (f r) = c_id r) ->
  existsb (has_id i)
    (map (fun r => if has_id conversation_id r then f r else r) rows)
    = existsb (has_id i) rows.
Proof.
  intros Hf. induction rows as [|r l IH]; simpl; [reflexivity|].
  rewrite IH. f_equal.
  destruct (has_id conversation_id r); [|reflexivity].
  unfold has_id. rewrite Hf. reflexivity.
Qed.

(** X11. The add-message endpoint never leaves a message without its
    conversation: on a store where every Message row has a Conversation
    row, that still holds after the request, whatever it answered and
    whatever failed during it (the method [add_message] alone does not
    check the parent; the endpoint's [get_conversation] does). *)
Theorem add_message_endpoint_keeps_parents
    (json_dumps : json -> string) (json_loads : string -> option json)
    (conversation_id : string) (request : App.AddMessageRequest)
    (env1 env2 : Env) (db : Database) :
  no_orphans db ->
  no_orphans
    (snd (App.add_message_to_conversation json_dumps json_loads
            conversation_id request env1 env2 db)).
Proof.
  intros Horph.
  unfold App.add_message_to_conversation, db.get_conversation,
    db.add_message.
  rewrite get_conversation_run.
  destruct (io_error env1 0); [exact Horph|].
  destruct (io_error env1 1); [exact Horph|].
  destruct (select_conversation conversation_id db) as [r|] eqn:Esel;
    [|exact Horph].
  destruct (conversation_dict json_loads r); [|exact Horph].
  rewrite add_message_run. cbv zeta.
  destruct (io_error env2 0); [exact Horph|].
  destruct (io_error env2 1); [exact Horph|].
  destruct (MAX_ROWID <=? _); [exact Horph|].
  destruct (io_error env2 2); [exact Horph|].
  destruct (io_error env2 3); [exact Horph|].
  intros m Hin. simpl in *.
  rewrite existsb_has_id_updated by reflexivity.
  apply in_app_or in Hin. destruct Hin as [Hold | [<- | []]].
  - apply Horph, Hold.
  - simpl. unfold select_conversation in Esel. apply find_some in Esel.
    apply existsb_exists. exists r. exact Esel.
Qed.

(** X11 on the store holding "c1" and its two messages. *)
Lemma add_message_endpoint_keeps_parents_sample :
  no_orphans two_messages /\
  no_orphans
    (snd (App.add_message_to_conversation Json.dumps Json.loads "c1"
            {| App.role := "human"; App.content := "more";
               App.metadata := None |}
            (calm "2026-11-03 10:00:09" "2026-11-03T11:00:09.000100")
            (calm "2026-11-03 10:00:10" "2026-11-03T11:00:10.000100")
            two_messages)).
Proof.
  assert (H : no_orphans two_messages).
  { intros m [<- | [<- | []]]; reflexivity. }
  split; [exact H|].
  apply (add_message_endpoint_keeps_parents Json.dumps Json.loads "c1"
           {| App.role := "human"; App.content := "more";
              App.metadata := None |}
           (calm "2026-11-03 10:00:09" "2026-11-03T11:00:09.000100")
           (calm "2026-11-03 10:00:10" "2026-11-03T11:00:10.000100")
           two_messages H).
Defined.

Lemma get_after_create
    (json_dumps : json -> string) (json_loads : string -> option json)
    (conversation_id title : string) (metadata : option Dict)
    (env env' : Env) (db db' : Database) (r : ConversationDict) :
  loads_or_empty json_loads (Some (json_dumps (JObj (or_empty metadata))))
    = Return (JObj (or_empty metadata)) ->
  create_conversation json_dumps conversation_id title metadata env db
    = (Return r, db') ->
  no_io_error env' ->
  get_conversation json_loads conversation_id env' db'
    = (Return
         (Some {| cd_id := conversation_id; cd_title := title;
                  cd_created_at := CURRENT_TIMESTAMP env 1;
                  cd_updated_at := CURRENT_TIMESTAMP env 1;
                  cd_metadata := JObj (or_empty metadata) |}),
       db').
Proof.
  intros Hcodec Hcreate Hio.
  rewrite create_conversation_run in Hcreate.
  destruct (io_error env 0); [discriminate|].
  destruct (io_error env 1); [discriminate|].
  destruct (existsb (has_id conversation_id) (conversations db)) eqn:Hfresh;
    [discriminate|].
  destruct (io_error env 2); [discriminate|].
  injection Hcreate as _ <-.
  rewrite get_conversation_run, !Hio.
  unfold select_conversation. cbn [conversations].
  rewrite (find_appended _ _ _ Hfresh)
    by (apply has_id_true; reflexivity).
  unfold conversation_dict. cbn [c_metadata c_id c_title c_created_at
                                 c_updated_at].
  rewrite Hcodec. reflexivity.
Qed.

(** X12. A conversation posted without a title, or with the empty title,
    is stored as "New Conversation" under the generated id: when the create
    endpoint answers with a body, then on a working engine (and a codec
    that reads back the metadata it wrote) the read endpoint answers, for
    that id, with the title the request gave or else "New Conversation",
    the posted metadata or else the empty document, and [updated_at] equal
    to [created_at]. *)
Theorem create_endpoint_then_get
    (json_dumps : json -> string) (json_loads : string -> option json)
    (uuid4 : string) (request : App.CreateConversationRequest)
    (env env' : Env) (db db' : Database) (c : ConversationDict) :
  loads_or_empty json_loads
      (Some (json_dumps (JObj (or_empty (App.request_metadata request)))))
    = Return (JObj (or_empty (App.request_metadata request))) ->
  App.create_conversation json_dumps uuid4 request env db
    = (App.Body c, db') ->
  no_io_error env' ->
  exists c',
    App.get_conversation json_loads uuid4 env' db' = (App.Body c', db') /\
    cd_id c' = uuid4 /\
    cd_title c' =
      match App.request_title request with
      | Some (String ch t) => String ch t
      | _ => "New Conversation"
      end /\
    cd_metadata c' = JObj (or_empty (App.request_metadata request)) /\
    cd_updated_at c' = cd_created_at c'.
Proof.
  intros Hcodec Hcreate Hio.
  unfold App.create_conversation, db.create_conversation in Hcreate.
  destruct (create_conversation json_dumps uuid4 _ _ env db)
    as [[r|e] db1] eqn:Erun; [|discriminate].
  injection Hcreate as _ <-.
  unfold App.get_conversation, db.get_conversation.
  rewrite (get_after_create _ _ _ _ _ _ _ _ _ _ Hcodec Erun Hio).
  eexists. split; [reflexivity|]. simpl.
  split; [reflexivity|]. split; [|split; reflexivity].
  unfold App.title_or_default.
  destruct (App.request_title request) as [[|ch t]|]; reflexivity.
Qed.

(** X12 on a request with the empty title and no metadata. *)
Lemma create_endpoint_then_get_sample :
  exists c',
    App.get_conversation Json.loads "6f1c"
        (calm "2026-11-03 10:00:09" "2026-11-03T11:00:09.000100")
        (snd (App.create_conversation Json.dumps "6f1c"
                {| App.request_title := Some "";
                   App.request_metadata := None |}
                (calm "2026-11-03 10:00:00" "2026-11-03T11:00:00.250000")
                empty_db))
      = (App.Body c',
         snd (App.create_conversation Json.dumps "6f1c"
                {| App.request_title := Some "";
                   App.request_metadata := None |}
                (calm "2026-11-03 10:00:00" "2026-11-03T11:00:00.250000")
                empty_db)) /\
    cd_id c' = "6f1c" /\
    cd_title c' = "New Conversation" /\
    cd_metadata c' = JObj [] /\
    cd_updated_at c' = cd_created_at c'.
Proof.
  eapply (create_endpoint_then_get Json.dumps Json.loads "6f1c"
            {| App.request_title := Some ""; App.request_metadata := None |}
            (calm "2026-11-03 10:00:00" "2026-11-03T11:00:00.250000")
            (calm "2026-11-03 10:00:09" "2026-11-03T11:00:09.000100")
            empty_db).
  - vm_compute. reflexivity.
  - vm_compute. reflexivity.
  - intros k. reflexivity.
Defined.

(** X13. After the delete endpoint has answered with success, the
    conversation is no longer served: on a working engine the read endpoint
    and the messages endpoint both answer 404 for the id, and a second
    delete request answers 404 as well. *)
Theorem delete_endpoint_then_404
    (json_loads : string -> option json)
    (scan_messages : list message_row -> list message_row)
    (conversation_id : string) (env env' env2 : Env) (db db' : Database)
    (body : App.Success) :
  App.delete_conversation conversation_id env db = (App.Body body, db') ->
  no_io_error env' ->
  In conversation_id (map c_id (conversations db)) /\
  body = {| App.success := true; App.message := "Conversation deleted" |} /\
  App.get_conversation json_loads conversation_id env' db'
    = (App.not_found, db') /\
  App.get_conversation_messages json_loads scan_messages conversation_id
      env' env2 db'
    = (App.not_found, db') /\
  App.delete_conversation conversation_id env' db' = (App.not_found, db').
Proof.
  intros Hdel Hio.
  unfold App.delete_conversation, db.delete_conversation in Hdel.
  rewrite delete_conversation_run, rowcount_positive in Hdel.
  destruct (io_error env 0); [discriminate|].
  destruct (io_error env 1); [discriminate|].
  destruct (io_error env 2); [discriminate|].
  destruct (existsb (has_id conversation_id) (conversations db)) eqn:Hex;
    [|discriminate].
  injection Hdel as <- <-.
  pose proof (existsb_after_delete conversation_id (conversations db))
    as Hgone.
  split; [apply existsb_has_id, Hex|]. split; [reflexivity|].
  assert (Hsel : select_conversation conversation_id
                   {| conversations :=
                        filter (fun r => negb (has_id conversation_id r))
                               (conversations db);
                      messages := messages db;
                      sqlite_sequence := sqlite_sequence db |} = None).
  { apply select_conversation_missing. simpl. intros Hin.
    apply existsb_has_id in Hin. congruence. }
  unfold App.get_conversation, App.get_conversation_messages,
    App.delete_conversation, db.get_conversation, db.delete_conversation.
  rewrite get_conversation_run, delete_conversation_run, !Hio, Hsel,
    rowcount_positive.
  cbn [conversations messages sqlite_sequence].
  rewrite Hgone, (filter_all _ _ Hgone).
  repeat split; reflexivity.
Qed.

(** X13 on the store holding "c1" and its two messages. *)
Lemma delete_endpoint_then_404_sample :
  let env := calm "2026-11-03 10:00:09" "2026-11-03T11:00:09.000100" in
  exists db',
    App.delete_conversation "c1" env two_messages
      = (App.Body {| App.success := true;
                     App.message := "Conversation deleted" |}, db') /\
    App.get_conversation_messages Json.loads rowid_order "c1" env env db'
      = (App.not_found, db').
Proof.
  cbv zeta. eexists. split; [vm_compute; reflexivity|].
  refine (proj1 (proj2 (proj2 (proj2
            (delete_endpoint_then_404 Json.loads rowid_order "c1"
               (calm "2026-11-03 10:00:09" "2026-11-03T11:00:09.000100")
               (calm "2026-11-03 10:00:09" "2026-11-03T11:00:09.000100")
               (calm "2026-11-03 10:00:09" "2026-11-03T11:00:09.000100")
               two_messages _ _ _ _))))).
  - vm_compute. reflexivity.
  - intros k. reflexivity.
Defined.

(** * Most recently active first *)

(** X14. A conversation that has just received a message heads the list:
    when [add_message(id, ...)] returns for a stored conversation and the
    [CURRENT_TIMESTAMP] of its UPDATE is later than the [updated_at] of
    every conversation under another id, then on a working engine
    [get_all_conversations(1)] returns exactly one record, the one of [id],
    with that timestamp as [updated_at]. *)
Theorem latest_message_lists_first
    (json_dumps : json -> string) (json_loads : string -> option json)
    (scan_conversations : list conversation_row -> list conversation_row)
    (conversation_id role content : string) (metadata : option Dict)
    (env env' : Env) (db db' : Database) (m : MessageDict) :
  (forall rows, Permutation (scan_conversations rows) rows) ->
  In conversation_id (map c_id (conversations db)) ->
  (forall r, In r (conversations db) -> c_id r <> conversation_id ->
     (c_updated_at r <? CURRENT_TIMESTAMP env 2)%string = true) ->
  add_message json_dumps conversation_id role content metadata env db
    = (Return m, db') ->
  decodable json_loads db' ->
  no_io_error env' ->
  exists s,
    get_all_conversations json_loads scan_conversations 1 env' db'
      = (Return [s], db') /\
    cs_id s = conversation_id /\
    cs_updated_at s = CURRENT_TIMESTAMP env 2.
Proof.
  intros Hscan Hin Hlater Hadd [Hdec _] Hio.
  assert (Hrows' : forall r', In r' (conversations db') ->
            (c_id r' = conversation_id /\
             c_updated_at r' = CURRENT_TIMESTAMP env 2) \/
            (c_updated_at r' <? CURRENT_TIMESTAMP env 2)%string = true).
  { rewrite add_message_run in Hadd. cbv zeta in Hadd.
    destruct (io_error env 0); [discriminate|].
    destruct (io_error env 1); [discriminate|].
    destruct (MAX_ROWID <=? _); [discriminate|].
    destruct (io_error env 2); [discriminate|].
    destruct (io_error env 3); [discriminate|].
    injection Hadd as _ <-. simpl. intros r' Hr'.
    apply in_map_iff in Hr'. destruct Hr' as [o [<- Ho]].
    destruct (has_id conversation_id o) eqn:Eo.
    - left. apply has_id_true in Eo. split; [exact Eo|reflexivity].
    - right. apply Hlater; [exact Ho|]. apply has_id_false, Eo. }
  assert (Hmine : exists t, In t (conversations db') /\
            c_updated_at t = CURRENT_TIMESTAMP env 2).
  { rewrite add_message_run in Hadd. cbv zeta in Hadd.
    destruct (io_error env 0); [discriminate|].
    destruct (io_error env 1); [discriminate|].
    destruct (MAX_ROWID <=? _); [discriminate|].
    destruct (io_error env 2); [discriminate|].
    destruct (io_error env 3); [discriminate|].
    injection Hadd as _ <-. simpl.
    apply in_map_iff in Hin. destruct Hin as [o [Hid Ho]].
    exists (set_updated_at (CURRENT_TIMESTAMP env 2) o).
    split; [|reflexivity].
    apply in_map_iff. exists o. split; [|exact Ho].
    apply has_id_true in Hid. rewrite Hid. reflexivity. }
  clear Hadd Hin Hlater.
  destruct (select_all_conversations_rows scan_conversations db' Hscan)
    as (rows & Hrows & Hperm & Hsorted).
  rewrite get_all_conversations_run, !Hio.
  change (fits_int64 1) with true. cbv iota.
  unfold select_all_conversations, apply_limit.
  change (1 <? 0) with false. cbv iota.
  rewrite Hrows.
  destruct Hmine as (t & Ht & Htime).
  apply (Permutation_in _ (Permutation_sym Hperm)) in Ht.
  destruct rows as [|r0 rest]; [destruct Ht|].
  assert (Hr0 : In r0 (conversations db'))
    by (apply (Permutation_in _ Hperm); left; reflexivity).
  rewrite Forall_forall in Hdec. destruct (Hdec r0 Hr0) as [doc Hdoc].
  simpl. unfold summary_dict. simpl. rewrite Hdoc.
  eexists. split; [reflexivity|]. simpl.
  destruct (Hrows' r0 Hr0) as [[Hid Hup] | Hold]; [split; assumption|].
  exfalso.
  pose proof (string_ltb_leb _ _ Hold) as Hnot.
  destruct Ht as [<- | Ht].
  - rewrite Htime, string_leb_refl in Hnot. discriminate.
  - inversion Hsorted as [|? ? _ Hall]; subst.
    rewrite Forall_forall in Hall. specialize (Hall t Ht).
    unfold conversation_row_ge in Hall. rewrite Htime in Hall. congruence.
Qed.

(** X14 on the store of three conversations: a message to "c2" at
    10:00:08 puts "c2" first. *)
Lemma latest_message_lists_first_sample :
  exists m db' s,
    add_message Json.dumps "c2" "human" "hi" None
        (calm "2026-11-03 10:00:08" "2026-11-03T11:00:08.500000")
        three_conversations
      = (Return m, db') /\
    get_all_conversations Json.loads rowid_order 1
        (calm "2026-11-03 10:00:09" "2026-11-03T11:00:09.000100") db'
      = (Return [s], db') /\
    cs_id s = "c2" /\
    cs_updated_at s = "2026-11-03 10:00:08".
Proof.
  destruct (add_message Json.dumps "c2" "human" "hi" None
              (calm "2026-11-03 10:00:08" "2026-11-03T11:00:08.500000")
              three_conversations) as [[m|e] db'] eqn:Hadd;
    [|vm_compute in Hadd; discriminate Hadd].
  assert (Hdb : db' = snd (add_message Json.dumps "c2" "human" "hi" None
                  (calm "2026-11-03 10:00:08" "2026-11-03T11:00:08.500000")
                  three_conversations))
    by (rewrite Hadd; reflexivity).
  destruct (latest_message_lists_first Json.dumps Json.loads rowid_order
              "c2" "human" "hi" None
              (calm "2026-11-03 10:00:08" "2026-11-03T11:00:08.500000")
              (calm "2026-11-03 10:00:09" "2026-11-03T11:00:09.000100")
              three_conversations db' m
              (fun rows => Permutation_refl rows))
    as (s & Hlist & Hid & Hup).
  - vm_compute. right. left. reflexivity.
  - intros r [<- | [<- | [<- | []]]] Hother; reflexivity.
  - exact Hadd.
  - rewrite Hdb. split; repeat constructor; eexists; vm_compute; reflexivity.
  - intros k. reflexivity.
  - exists m, db', s. split; [reflexivity|]. split; [exact Hlist|].
    split; [exact Hid|exact Hup].
Defined.
